(** * dl: conditional HTTP download helper (package [dl], file [dl.go])

    A shallow embedding of the Go package [dl] and the properties of its
    public operations [GetBodyFromURL], [GetRespFromURL] and [DownloadFile].

    The package talks to three things outside itself: the process (one
    global variable, [userAgent]), the local file system and an HTTP server
    reached through the shared [http.Client].  The embedding threads the
    mutable part of these through a state monad ([State], [M]) and takes the
    part the package cannot change (how the server answers, which file
    operations fail, the Go library helpers whose text is not in [dl.go]) as
    an environment [Env]. *)

From Stdlib Require Import ZArith Lia List Ascii String.
From Stdlib.Strings Require Import Byte.
From stdpp Require Import base option list strings gmap fin_maps.

Local Open Scope string_scope.

(** ** Go library pieces the package calls *)

(** A Go [error] value, identified with its [Error()] text; [nil] is [None]
    of [option error]. *)
Definition error : Type := string.

(** *** [strconv.ParseInt(s, 10, 0)] on a 64-bit platform *)

Inductive NumError : Type := ErrSyntax | ErrRange.

Definition is_digit (c : ascii) : bool :=
  let n := N_of_ascii c in ((48 <=? n) && (n <=? 57))%N.

Definition digit_val (c : ascii) : Z := (Z.of_N (N_of_ascii c) - 48)%Z.

Definition maxUint64 : Z := (2 ^ 64 - 1)%Z.

(** The digit loop of [strconv.ParseUint] for base 10 and bit size 64: [n] is
    the value read so far. *)
Fixpoint parseUint_loop (s : string) (n : Z) : Z * option NumError :=
  match s with
  | EmptyString => (n, None)
  | String d s' =>
      if negb (is_digit d) then (0%Z, Some ErrSyntax)
      else if (maxUint64 / 10 + 1 <=? n)%Z then (maxUint64, Some ErrRange)
      else
        let n1 := (n * 10 + digit_val d)%Z in
        if (maxUint64 <? n1)%Z then (maxUint64, Some ErrRange)
        else parseUint_loop s' n1
  end.

Definition ParseUint (s : string) : Z * option NumError :=
  match s with
  | EmptyString => (0%Z, Some ErrSyntax)
  | _ => parseUint_loop s 0%Z
  end.

(** [strconv.ParseInt(s, 10, 0)]: an optional sign, then decimal digits; the
    result must fit an [int] (64 bits). *)
Definition ParseInt (s : string) : Z * option NumError :=
  match s with
  | EmptyString => (0%Z, Some ErrSyntax)
  | String c rest =>
      let '(neg, digits) :=
        if Ascii.eqb c "+" then (false, rest)
        else if Ascii.eqb c "-" then (true, rest)
        else (false, s) in
      match ParseUint digits with
      | (_, Some ErrSyntax) => (0%Z, Some ErrSyntax)
      | (un, _) =>
          let cutoff := (2 ^ 63)%Z in
          if negb neg && (cutoff <=? un)%Z then ((cutoff - 1)%Z, Some ErrRange)
          else if neg && (cutoff <? un)%Z then ((- cutoff)%Z, Some ErrRange)
          else (if neg then (- un)%Z else un, None)
      end
  end.

(** [uint64(x)] of an [int64]. *)
Definition uint64 (x : Z) : Z := (x mod 2 ^ 64)%Z.

(** *** [net/textproto]: canonical header keys *)

Definition is_lower (c : ascii) : bool :=
  let n := N_of_ascii c in ((97 <=? n) && (n <=? 122))%N.

Definition is_upper (c : ascii) : bool :=
  let n := N_of_ascii c in ((65 <=? n) && (n <=? 90))%N.

Definition to_upper (c : ascii) : ascii := ascii_of_N (N_of_ascii c - 32).
Definition to_lower (c : ascii) : ascii := ascii_of_N (N_of_ascii c + 32).

(** [validHeaderFieldByte]: the token characters of RFC 7230. *)
Definition validHeaderFieldByte (c : ascii) : bool :=
  is_digit c || is_lower c || is_upper c ||
  existsb (Ascii.eqb c)
    ["!"; "#"; "$"; "%"; "&"; "'"; "*"; "+"; "-"; "."; "^"; "_"; "`"; "|"; "~"]%char.

Fixpoint all_valid (s : string) : bool :=
  match s with
  | EmptyString => true
  | String c s' => validHeaderFieldByte c && all_valid s'
  end.

(** The casing loop of [canonicalMIMEHeaderKey]: upper case at the start and
    after each dash, lower case elsewhere. *)
Definition canon_char (upper : bool) (c : ascii) : ascii :=
  if upper && is_lower c then to_upper c
  else if negb upper && is_upper c then to_lower c
  else c.

Fixpoint canon_case (upper : bool) (s : string) : string :=
  match s with
  | EmptyString => EmptyString
  | String c s' =>
      let c' := canon_char upper c in
      String c' (canon_case (Ascii.eqb c' "-") s')
  end.

(** [textproto.CanonicalMIMEHeaderKey]: a key holding a byte that is not a
    token character is returned as it is. *)
Definition CanonicalMIMEHeaderKey (s : string) : string :=
  if all_valid s then canon_case true s else s.

(** *** [http.Header], a [map[string][]string] *)

Definition Header_Set (h : gmap string (list string)) (k v : string)
  : gmap string (list string) :=
  <[CanonicalMIMEHeaderKey k := [v]]> h.

Definition Header_Get (h : gmap string (list string)) (k : string) : string :=
  match h !! CanonicalMIMEHeaderKey k with
  | Some (v :: _) => v
  | _ => ""
  end.

(** ** Data *)

Record Cookie : Type := { Name : string; Value : string }.

Record Request : Type := {
  Method : string;
  URL : string;
  ReqHeader : gmap string (list string)
}.

(** A response as [client.Do] hands it over: [Body] holds the bytes the body
    stream delivers and [BodyErr] the error that ends the stream, [None] for
    a clean end of file. *)
Record Response : Type := {
  StatusCode : Z;
  Status : string;
  RespHeader : gmap string (list string);
  Body : list byte;
  BodyErr : option error
}.

(** What the package prints: standard output ([fmt.Printf]) and the debug
    log ([log.Debug], [log.Debugf]). *)
Inductive Line : Type :=
| Stdout (text : string)
| DebugStatus (code : Z) (status : string)
| DebugText (text : string).

(** The part of the world the package does not change. *)
Record Env : Type := {
  (** [http.NewRequest("GET", s, nil)]: the error for the URL text [s] *)
  url_err : string -> option error;
  (** the cookie sanitizers [AddCookie] applies *)
  sanitizeCookieName : string -> string;
  sanitizeCookieValue : string -> string;
  (** [client.Do]: the answer to a request, given the requests sent before *)
  serve : list Request -> Request -> Response + error;
  (** errors of [os.Open], [File.Stat], [os.OpenFile(_, O_RDWR, _)] and
      [os.Create] on a path *)
  open_err : string -> option error;
  stat_err : string -> option error;
  rdwr_err : string -> option error;
  create_err : string -> option error;
  (** writing to a path fails with the error after that many bytes *)
  write_fault : string -> option (nat * error);
  (** [filepath.Dir], [filepath.Base], [humanize.Bytes] *)
  filepath_Dir : string -> string;
  filepath_Base : string -> string;
  humanize_Bytes : Z -> string
}.

(** The part it does change.  [fs] holds the regular files the process can
    see: it maps a path, as the text the package is given, to the bytes
    stored there.  Two texts that name one file, directories, and
    destinations that are not regular files (devices, pipes) are outside
    the model; the directories [os.MkdirAll] is asked for are recorded in
    [mkdirs]. *)
Record State : Type := {
  userAgent : string;
  fs : gmap string (list byte);
  sent : list Request;
  output : list Line;
  mkdirs : list string
}.

Definition set_userAgent (ua : string) (s : State) : State :=
  {| userAgent := ua; fs := fs s; sent := sent s; output := output s;
     mkdirs := mkdirs s |}.

Definition set_fs (m : gmap string (list byte)) (s : State) : State :=
  {| userAgent := userAgent s; fs := m; sent := sent s; output := output s;
     mkdirs := mkdirs s |}.

Definition add_sent (r : Request) (s : State) : State :=
  {| userAgent := userAgent s; fs := fs s; sent := (sent s ++ [r])%list;
     output := output s; mkdirs := mkdirs s |}.

Definition add_output (l : Line) (s : State) : State :=
  {| userAgent := userAgent s; fs := fs s; sent := sent s;
     output := (output s ++ [l])%list; mkdirs := mkdirs s |}.

Definition add_mkdir (d : string) (s : State) : State :=
  {| userAgent := userAgent s; fs := fs s; sent := sent s; output := output s;
     mkdirs := (mkdirs s ++ [d])%list |}.

(** ** The monad: state, and Go's run-time panic *)

Inductive outcome (A : Type) : Type :=
| Returns (a : A)
| Panics.
Arguments Returns {A} a.
Arguments Panics {A}.

Definition M (A : Type) : Type := State -> outcome A * State.

Definition ret {A} (a : A) : M A := fun s => (Returns a, s).

Definition panic {A} : M A := fun s => (Panics, s).

Definition bind {A B} (m : M A) (k : A -> M B) : M B :=
  fun s =>
    match m s with
    | (Returns a, s') => k a s'
    | (Panics, s') => (Panics, s')
    end.

Definition lift {A} (o : outcome A) : M A := fun s => (o, s).

Definition gets {A} (f : State -> A) : M A := fun s => (Returns (f s), s).

Definition modify (f : State -> State) : M unit := fun s => (Returns tt, f s).

Declare Scope go_scope.
Delimit Scope go_scope with go.
Notation "'let!' x ':=' m 'in' k" := (bind m (fun x => k))
  (at level 10, x name, m at level 200, k at level 200) : go_scope.
Notation "'do!' m 'in' k" := (bind m (fun _ => k))
  (at level 10, m at level 200, k at level 200) : go_scope.

(** ** The package *)

Section Package.

Context (E : Env).

Local Open Scope go_scope.

(** [http.NewRequest("GET", u.String(), nil)]; the argument is the text
    [u.String()] of the URL. *)
Definition http_NewRequest (u : string) : Request + error :=
  match url_err E u with
  | Some err => inr err
  | None => inl {| Method := "GET"; URL := u; ReqHeader := ∅ |}
  end.

Definition set_ReqHeader (h : gmap string (list string)) (r : Request)
  : Request :=
  {| Method := Method r; URL := URL r; ReqHeader := h |}.

(** [req.AddCookie(c)] of [net/http]. *)
Definition cookie_pair (c : Cookie) : string :=
  sanitizeCookieName E (Name c) +:+ "=" +:+ sanitizeCookieValue E (Value c).

Definition AddCookie (c : Cookie) (r : Request) : Request :=
  let s := cookie_pair c in
  let cur := Header_Get (ReqHeader r) "Cookie" in
  if String.eqb cur "" then
    set_ReqHeader (Header_Set (ReqHeader r) "Cookie" s) r
  else
    set_ReqHeader (Header_Set (ReqHeader r) "Cookie" (cur +:+ "; " +:+ s)) r.

(** [for _, c := range *cookies { req.AddCookie(c) }] over the slice; a nil
    [*http.Cookie] in it makes [AddCookie] panic. *)
Fixpoint addCookies (cs : list (option Cookie)) (r : Request)
  : outcome Request :=
  match cs with
  | [] => Returns r
  | None :: _ => Panics
  | Some c :: cs' => addCookies cs' (AddCookie c r)
  end.

(** [for k, v := range headers { req.Header.Set(k, v) }]; the list holds the
    entries of the map in the order the loop visits them, which Go leaves
    open. *)
Definition setHeaders (headers : list (string * string)) (r : Request)
  : Request :=
  fold_left
    (fun r kv => set_ReqHeader (Header_Set (ReqHeader r) (fst kv) (snd kv)) r)
    headers r.

(** The three statements every function of the package runs on its fresh
    request (lines 61-67, 86-92, 105-111 and 164-170).  [cookies] is the
    pointer [*[]*http.Cookie], [None] when it is nil. *)
Definition decorate (ua : string) (headers : list (string * string))
    (cookies : option (list (option Cookie))) (req : Request)
  : outcome Request :=
  let req := set_ReqHeader (Header_Set (ReqHeader req) "User-Agent" ua) req in
  match cookies with
  | None => Panics
  | Some cs =>
      match addCookies cs req with
      | Panics => Panics
      | Returns req => Returns (setHeaders headers req)
      end
  end.

(** The request a function of the package has in hand after its first
    statements (lines 56-67 in [GetBodyFromURL], the same text in the other
    three): the error of [http.NewRequest], a panic, or the request with
    user agent, cookies and headers on it. *)
Definition outbound (ua u : string) (headers : list (string * string))
    (cookies : option (list (option Cookie))) : outcome (Request + error) :=
  match http_NewRequest u with
  | inr err => Returns (inr err)
  | inl req =>
      match decorate ua headers cookies req with
      | Panics => Panics
      | Returns req => Returns (inl req)
      end
  end.

(** [client.Do(req)] *)
Definition client_Do (req : Request) : M (Response + error) :=
  fun s => (Returns (serve E (sent s) req), add_sent req s).

(** [SetUserAgent] *)
Definition SetUserAgent (ua : string) : M unit := modify (set_userAgent ua).

(** [FileExists] *)
Definition FileExists (filename : string) : M bool :=
  gets (fun s =>
    match fs s !! filename with
    | Some _ => true
    | None => false
    end).

(** [os.Open(name)]; the handle is the path. *)
Definition os_Open (name : string) : M (string + error) :=
  gets (fun s =>
    match fs s !! name with
    | None => inr ("open " +:+ name +:+ ": no such file or directory")
    | Some _ =>
        match open_err E name with
        | Some err => inr err
        | None => inl name
        end
    end).

(** [f.Stat()], reduced to the [Size()] the package reads from it. *)
Definition File_Stat (f : string) : M (Z + error) :=
  gets (fun s =>
    match stat_err E f with
    | Some err => inr err
    | None => inl (Z.of_nat (length (default [] (fs s !! f))))
    end).

(** [os.OpenFile(name, os.O_RDWR, 0775)]: no [O_CREATE], no [O_TRUNC]. *)
Definition os_OpenFile_RDWR (name : string) : M (string + error) :=
  gets (fun s =>
    match fs s !! name with
    | None => inr ("open " +:+ name +:+ ": no such file or directory")
    | Some _ =>
        match rdwr_err E name with
        | Some err => inr err
        | None => inl name
        end
    end).

(** [os.MkdirAll(dir, 0775)]; the package drops its error.  The call is
    recorded; [fs], which holds regular files only, is left alone. *)
Definition os_MkdirAll (dir : string) : M unit := modify (add_mkdir dir).

(** [os.Create(name)]: the file is created, or truncated, to length zero. *)
Definition os_Create (name : string) : M (string + error) :=
  fun s =>
    match create_err E name with
    | Some err => (Returns (inr err), s)
    | None => (Returns (inl name), set_fs (<[name := []]> (fs s)) s)
    end.

(** The bytes [io.Copy] gets written to [out] and the error it returns. *)
Definition copied (out : string) (resp : Response) : list byte * option error :=
  match write_fault E out with
  | Some (k, err) =>
      if (k <? length (Body resp))%nat then (take k (Body resp), Some err)
      else (Body resp, BodyErr resp)
  | None => (Body resp, BodyErr resp)
  end.

(** [io.Copy(out, resp.Body)] on a regular file just opened: the bytes go
    to offset zero and replace what was there; what lies beyond them
    stays. *)
Definition io_Copy (out : string) (resp : Response) : M (Z * option error) :=
  fun s =>
    let '(written, err) := copied out resp in
    let old := default [] (fs s !! out) in
    (Returns (Z.of_nat (length written), err),
     set_fs (<[out := (written ++ drop (length written) old)%list]> (fs s)) s).

(** [ioutil.ReadAll(resp.Body)] *)
Definition ioutil_ReadAll (resp : Response) : list byte * option error :=
  (Body resp, BodyErr resp).

(** [fmt.Printf("<verb> %s (%s)\n", filepath.Base(fileloc),
    humanize.Bytes(uint64(length)))] *)
Definition Printf_line (verb fileloc : string) (length : Z) : Line :=
  Stdout (verb +:+ " " +:+ filepath_Base E fileloc +:+ " (" +:+
          humanize_Bytes E (uint64 length) +:+ ")" +:+ String "010" "").

(** [GetBodyFromURL] (lines 55-76) *)
Definition GetBodyFromURL (u : string) (headers : list (string * string))
    (cookies : option (list (option Cookie))) : M (list byte * option error) :=
  match http_NewRequest u with
  | inr err => ret ([], Some err)
  | inl req =>
      let! ua := gets userAgent in
      let! req := lift (decorate ua headers cookies req) in
      let! r := client_Do req in
      match r with
      | inr err => ret ([], Some err)
      | inl resp => ret (ioutil_ReadAll resp)
      end
  end.

(** [GetRespFromURL] (lines 79-95) *)
Definition GetRespFromURL (u : string) (headers : list (string * string))
    (cookies : option (list (option Cookie)))
  : M (option Response * option error) :=
  match http_NewRequest u with
  | inr err => ret (None, Some err)
  | inl req =>
      let! ua := gets userAgent in
      let! req := lift (decorate ua headers cookies req) in
      let! r := client_Do req in
      match r with
      | inr err => ret (None, Some err)
      | inl resp => ret (Some resp, None)
      end
  end.

(** [writeToFileFromURL] (lines 157-209) *)
Definition writeToFileFromURL (fileloc u : string)
    (headers : list (string * string))
    (cookies : option (list (option Cookie))) : M (Z * option error) :=
  match http_NewRequest u with
  | inr err => ret (0%Z, Some err)
  | inl req =>
      let! ua := gets userAgent in
      let! req := lift (decorate ua headers cookies req) in
      let! r := client_Do req in
      match r with
      | inr err => ret (0%Z, Some err)
      | inl resp =>
          do! modify (add_output (DebugStatus (StatusCode resp) (Status resp))) in
          do! modify (add_output
                (DebugText (Header_Get (RespHeader resp) "Content-Type"))) in
          let '(length, perr) :=
            ParseInt (Header_Get (RespHeader resp) "Content-Length") in
          do! (match perr with
               | Some _ =>
                   modify (add_output
                     (DebugText ("No Content-Length Header for " +:+ u)))
               | None => ret tt
               end) in
          let! exists_ := FileExists fileloc in
          let! opened :=
            (if exists_ then os_OpenFile_RDWR fileloc
             else
               do! os_MkdirAll (filepath_Dir E fileloc) in
               os_Create fileloc) in
          match opened with
          | inr err => ret (0%Z, Some err)
          | inl out =>
              do! modify (add_output (Printf_line "Downloading" fileloc length)) in
              io_Copy out resp
          end
      end
  end.

(** [DownloadFile] (lines 98-155) *)
Definition DownloadFile (fileloc u : string)
    (headers : list (string * string))
    (cookies : option (list (option Cookie))) : M (Z * option error) :=
  match http_NewRequest u with
  | inr err => ret (0%Z, Some err)
  | inl req =>
      let! ua := gets userAgent in
      let! req := lift (decorate ua headers cookies req) in
      let! exists_ := FileExists fileloc in
      if negb exists_ then writeToFileFromURL fileloc u headers cookies
      else
        let! r := client_Do req in
        match r with
        | inr err => ret (0%Z, Some err)
        | inl head =>
            if String.eqb (Header_Get (RespHeader head) "Content-Length") ""
            then writeToFileFromURL fileloc u headers cookies
            else
              match ParseInt (Header_Get (RespHeader head) "Content-Length") with
              | (_, Some _) => writeToFileFromURL fileloc u headers cookies
              | (length, None) =>
                  let! f := os_Open fileloc in
                  match f with
                  | inr err => ret (0%Z, Some err)
                  | inl f =>
                      let! stat := File_Stat f in
                      match stat with
                      | inr err => ret (0%Z, Some err)
                      | inl size =>
                          if (size =? length)%Z then
                            do! modify
                              (add_output (Printf_line "Skipping" fileloc length)) in
                            ret (0%Z, None)
                          else writeToFileFromURL fileloc u headers cookies
                      end
                  end
              end
        end
  end.

End Package.

(** ** Vocabulary of the properties *)

(** Header names compared without regard to (ASCII) case. *)
Definition lower (c : ascii) : ascii := if is_upper c then to_lower c else c.

Fixpoint string_lower (s : string) : string :=
  match s with
  | EmptyString => EmptyString
  | String c s' => String (lower c) (string_lower s')
  end.

Definition EqualFold (a b : string) : Prop := string_lower a = string_lower b.

(** The [Cookie] header that carries the cookies [cs], in order. *)
Definition cookie_line (E : Env) (cs : list Cookie) : string :=
  String.concat "; " (map (cookie_pair E) cs).

(** The cookie [c] is on the request [r]: its pair occurs in the [Cookie]
    header. *)
Definition attached (E : Env) (c : Cookie) (r : Request) : Prop :=
  exists pre post : string,
    Header_Get (ReqHeader r) "Cookie" = pre +:+ cookie_pair E c +:+ post.

(** [p] occurs in [s]. *)
Fixpoint occurs (p s : string) : bool :=
  String.prefix p s ||
  match s with
  | EmptyString => false
  | String _ s' => occurs p s'
  end.

(** The advertised length cannot be used: [Content-Length] is absent (or
    empty), or [strconv.ParseInt] rejects it. *)
Definition length_unknown (resp : Response) : Prop :=
  Header_Get (RespHeader resp) "Content-Length" = "" \/
  snd (ParseInt (Header_Get (RespHeader resp) "Content-Length")) <> None.

(** A response with its [Content-Length] header replaced by [v], or removed
    for [None]; and a server that does so to every response. *)
Definition replace_length (v : option string) (resp : Response) : Response :=
  {| StatusCode := StatusCode resp; Status := Status resp;
     RespHeader :=
       match v with
       | Some x => <["Content-Length" := [x]]> (RespHeader resp)
       | None => delete "Content-Length" (RespHeader resp)
       end;
     Body := Body resp; BodyErr := BodyErr resp |}.

Definition relabel (v : option string) (E : Env) : Env :=
  {| url_err := url_err E;
     sanitizeCookieName := sanitizeCookieName E;
     sanitizeCookieValue := sanitizeCookieValue E;
     serve := fun hist req =>
       match serve E hist req with
       | inl resp => inl (replace_length v resp)
       | inr err => inr err
       end;
     open_err := open_err E; stat_err := stat_err E; rdwr_err := rdwr_err E;
     create_err := create_err E; write_fault := write_fault E;
     filepath_Dir := filepath_Dir E; filepath_Base := filepath_Base E;
     humanize_Bytes := humanize_Bytes E |}.

(** A response with its status line replaced; and a server that does so to
    every response. *)
Definition restatus (code : Z) (status : string) (resp : Response) : Response :=
  {| StatusCode := code; Status := status; RespHeader := RespHeader resp;
     Body := Body resp; BodyErr := BodyErr resp |}.

Definition recode (code : Z) (status : string) (E : Env) : Env :=
  {| url_err := url_err E;
     sanitizeCookieName := sanitizeCookieName E;
     sanitizeCookieValue := sanitizeCookieValue E;
     serve := fun hist req =>
       match serve E hist req with
       | inl resp => inl (restatus code status resp)
       | inr err => inr err
       end;
     open_err := open_err E; stat_err := stat_err E; rdwr_err := rdwr_err E;
     create_err := create_err E; write_fault := write_fault E;
     filepath_Dir := filepath_Dir E; filepath_Base := filepath_Base E;
     humanize_Bytes := humanize_Bytes E |}.

(** The canonical keys a supplied header map sets. *)
Definition header_keys (headers : list (string * string)) : list string :=
  map (fun kv => CanonicalMIMEHeaderKey (fst kv)) headers.

(** A request the package is meant to send: a GET of the URL text [u]. *)
Definition is_GET_of (u : string) (r : Request) : Prop :=
  Method r = "GET" /\ URL r = u.

(** What has gone to standard output, without the debug log. *)
Fixpoint stdout_of (out : list Line) : list string :=
  match out with
  | [] => []
  | Stdout text :: out' => text :: stdout_of out'
  | _ :: out' => stdout_of out'
  end.

(** ** Concrete worlds, for the examples *)

Module Sample.

(** A response with status [code], an optional [Content-Length] and a body
    that is delivered whole. *)
Definition response (code : Z) (cl : option string) (body : string) : Response :=
  {| StatusCode := code; Status := "";
     RespHeader :=
       match cl with
       | Some v => {[ "Content-Length" := [v] ]}
       | None => ∅
       end;
     Body := list_byte_of_string body; BodyErr := None |}.

(** An environment: [http.NewRequest] rejects a URL text that starts with a
    colon (Go: missing protocol scheme); the server answers by [answers];
    [os.Open] and [Stat] fail as given; nothing else fails. *)
Definition env (answers : list Request -> Request -> Response + error)
    (open_e stat_e : option error) : Env :=
  {| url_err := fun u =>
       if String.prefix ":" u then Some "missing protocol scheme" else None;
     sanitizeCookieName := fun n => n;
     sanitizeCookieValue := fun v => v;
     serve := answers;
     open_err := fun _ => open_e;
     stat_err := fun _ => stat_e;
     rdwr_err := fun _ => None;
     create_err := fun _ => None;
     write_fault := fun _ => None;
     filepath_Dir := fun p => p;
     filepath_Base := fun p => p;
     humanize_Bytes := fun _ => "" |}.

(** A server that gives the same answer to every request. *)
Definition always (a : Response + error) : list Request -> Request -> Response + error :=
  fun _ _ => a.

(** A server that refuses the first request and answers the later ones. *)
Definition second_try (a : Response) : list Request -> Request -> Response + error :=
  fun hist _ =>
    match hist with
    | [] => inr "connection refused"
    | _ => inl a
    end.

(** A process that has sent nothing yet, with the given files on disk. *)
Definition state (files : gmap string (list byte)) : State :=
  {| userAgent := "dl v0.0.1"; fs := files; sent := []; output := [];
     mkdirs := [] |}.

(** The request the package builds in that process for the URL text [u],
    without headers or cookies. *)
Definition request (u : string) : Request :=
  {| Method := "GET"; URL := u;
     ReqHeader := {[ "User-Agent" := ["dl v0.0.1"] ]} |}.

Definition hello : gmap string (list byte) :=
  {[ "a.txt" := list_byte_of_string "hello" ]}.

Definition sid : Cookie := {| Name := "sid"; Value := "1" |}.

Definition not_found : Response :=
  {| StatusCode := 404; Status := "404 Not Found"; RespHeader := ∅;
     Body := list_byte_of_string "no such page"; BodyErr := None |}.

(** A response whose body stream breaks after three bytes. *)
Definition broken : Response :=
  {| StatusCode := 200; Status := "200 OK";
     RespHeader := {[ "Content-Length" := ["9"] ]};
     Body := list_byte_of_string "par"; BodyErr := Some "unexpected EOF" |}.

(** Like [env], on a disk that cannot be written: [os.OpenFile] for writing
    and [os.Create] fail. *)
Definition readonly_env (answers : list Request -> Request -> Response + error)
  : Env :=
  {| url_err := fun u =>
       if String.prefix ":" u then Some "missing protocol scheme" else None;
     sanitizeCookieName := fun n => n;
     sanitizeCookieValue := fun v => v;
     serve := answers;
     open_err := fun _ => None;
     stat_err := fun _ => None;
     rdwr_err := fun _ => Some "permission denied";
     create_err := fun _ => Some "permission denied";
     write_fault := fun _ => None;
     filepath_Dir := fun p => p;
     filepath_Base := fun p => p;
     humanize_Bytes := fun _ => "" |}.

(** What Go's client makes of a reply with status 200, sent without
    transfer coding and with at most one [Content-Length]: it fails the
    request when that header is there and is not a decimal number that is
    zero or more ([net/http]: bad Content-Length), and hands the reply over
    otherwise. *)
Definition through_go_client (reply : Response) : Response + error :=
  match RespHeader reply !! "Content-Length" with
  | Some (v :: _) =>
      match ParseInt v with
      | (n, None) =>
          if (n <? 0)%Z then inr "bad Content-Length" else inl reply
      | (_, Some _) => inr "bad Content-Length"
      end
  | _ => inl reply
  end.

End Sample.

(** ** The library pieces on a few inputs *)

Example ParseInt_decimal :
  ParseInt "2048" = (2048%Z, None) /\ ParseInt "+7" = (7%Z, None) /\
  ParseInt "-5" = ((-5)%Z, None).
Proof. repeat split; reflexivity. Qed.

Example ParseInt_rejects :
  ParseInt "" = (0%Z, Some ErrSyntax) /\
  ParseInt "12a" = (0%Z, Some ErrSyntax) /\
  ParseInt " 5" = (0%Z, Some ErrSyntax) /\
  ParseInt "9223372036854775808" = (9223372036854775807%Z, Some ErrRange).
Proof. repeat split; reflexivity. Qed.

Example ParseInt_bounds :
  ParseInt "9223372036854775807" = (9223372036854775807%Z, None) /\
  ParseInt "-9223372036854775808" = ((-9223372036854775808)%Z, None).
Proof. repeat split; reflexivity. Qed.

Example CanonicalMIMEHeaderKey_cases :
  CanonicalMIMEHeaderKey "user-agent" = "User-Agent" /\
  CanonicalMIMEHeaderKey "USER-AGENT" = "User-Agent" /\
  CanonicalMIMEHeaderKey "cOOkie" = "Cookie" /\
  CanonicalMIMEHeaderKey "content length" = "content length".
Proof. repeat split; reflexivity. Qed.

(** ** Running the package's functions *)

(** Unfolds the monad and the primitive operations. *)
Ltac run :=
  cbv beta iota zeta delta
    [bind ret lift gets modify panic client_Do FileExists os_Open File_Stat
     os_OpenFile_RDWR os_MkdirAll os_Create io_Copy ioutil_ReadAll];
  cbn [fs sent userAgent output mkdirs add_sent add_output add_mkdir set_fs
       negb].

Section Run.

Context (E : Env).

Lemma outbound_inl ua u headers cookies req :
  outbound E ua u headers cookies = Returns (inl req) ->
  url_err E u = None /\
  decorate E ua headers cookies {| Method := "GET"; URL := u; ReqHeader := ∅ |}
    = Returns req.
Proof.
  unfold outbound, http_NewRequest.
  destruct (url_err E u) as [err|]; [discriminate|].
  destruct (decorate E ua headers cookies _) as [r|]; [|discriminate].
  intros H. injection H as ->. split; reflexivity.
Qed.

Lemma outbound_inr ua u headers cookies err :
  outbound E ua u headers cookies = Returns (inr err) -> url_err E u = Some err.
Proof.
  unfold outbound, http_NewRequest.
  destruct (url_err E u) as [err'|].
  - intros H. injection H as ->. reflexivity.
  - destruct (decorate E ua headers cookies _); discriminate.
Qed.

Lemma outbound_panics ua u headers cookies :
  outbound E ua u headers cookies = Panics ->
  url_err E u = None /\
  decorate E ua headers cookies {| Method := "GET"; URL := u; ReqHeader := ∅ |}
    = Panics.
Proof.
  unfold outbound, http_NewRequest.
  destruct (url_err E u) as [err|]; [discriminate|].
  destruct (decorate E ua headers cookies _) as [r|]; [discriminate|].
  split; reflexivity.
Qed.

(** [writeToFileFromURL] when the request cannot be built, and when the
    cookies make it panic: nothing is sent. *)
Lemma writeToFileFromURL_bad_url fileloc u headers cookies s err :
  url_err E u = Some err ->
  writeToFileFromURL E fileloc u headers cookies s = (Returns (0%Z, Some err), s).
Proof.
  intros Hu. unfold writeToFileFromURL, http_NewRequest. rewrite Hu. reflexivity.
Qed.

Lemma writeToFileFromURL_panics fileloc u headers cookies s :
  outbound E (userAgent s) u headers cookies = Panics ->
  writeToFileFromURL E fileloc u headers cookies s = (Panics, s).
Proof.
  intros [Hu Hd]%outbound_panics.
  unfold writeToFileFromURL, http_NewRequest. rewrite Hu. run. rewrite Hd.
  reflexivity.
Qed.

(** The transport fails: the error comes back, one request was sent. *)
Lemma writeToFileFromURL_net_error fileloc u headers cookies s req err :
  outbound E (userAgent s) u headers cookies = Returns (inl req) ->
  serve E (sent s) req = inr err ->
  writeToFileFromURL E fileloc u headers cookies s
    = (Returns (0%Z, Some err), add_sent req s).
Proof.
  intros [Hu Hd]%outbound_inl Hs.
  unfold writeToFileFromURL, http_NewRequest. rewrite Hu. run. rewrite Hd, Hs.
  reflexivity.
Qed.

(** The destination exists and opens for reading and writing: the bytes
    copied replace the start of the old content. *)
Lemma writeToFileFromURL_existing fileloc u headers cookies s req resp old :
  outbound E (userAgent s) u headers cookies = Returns (inl req) ->
  serve E (sent s) req = inl resp ->
  fs s !! fileloc = Some old ->
  rdwr_err E fileloc = None ->
  exists s',
    writeToFileFromURL E fileloc u headers cookies s
      = (Returns (Z.of_nat (length (fst (copied E fileloc resp))),
                  snd (copied E fileloc resp)), s') /\
    fs s' = <[fileloc := (fst (copied E fileloc resp) ++
                          drop (length (fst (copied E fileloc resp))) old)%list]>
              (fs s) /\
    sent s' = (sent s ++ [req])%list /\
    userAgent s' = userAgent s /\
    mkdirs s' = mkdirs s.
Proof.
  intros [Hu Hd]%outbound_inl Hs Hf Hrw.
  unfold writeToFileFromURL, http_NewRequest. rewrite Hu. run. rewrite Hd, Hs.
  destruct (ParseInt _) as [len [perr|]];
    repeat (run; rewrite ?Hf, ?Hrw);
    destruct (copied E fileloc resp) as [written cerr];
    repeat (run; rewrite ?Hf);
    eexists; (split; [reflexivity|]); repeat split; reflexivity.
Qed.

(** What an existing destination is left with is as long as the longer of
    the bytes copied and the old content. *)
Lemma in_place_length (written old : list byte) :
  length (written ++ drop (length written) old)%list
    = Nat.max (length written) (length old).
Proof. rewrite length_app, length_drop. lia. Qed.

(** What [io.Copy] gets written when the write does not fail before the
    body ends, and when it fails after [k] bytes. *)
Lemma copied_whole (out : string) (resp : Response) :
  write_fault E out = None \/
    (exists k e, write_fault E out = Some (k, e) /\
                 (length (Body resp) <= k)%nat) ->
  copied E out resp = (Body resp, BodyErr resp).
Proof.
  unfold copied. intros [->|(k & e & -> & Hk)]; [reflexivity|].
  destruct (Nat.ltb_spec k (length (Body resp))); [lia|reflexivity].
Qed.

Lemma copied_cut (out : string) (resp : Response) (k : nat) (e : error) :
  write_fault E out = Some (k, e) ->
  (k < length (Body resp))%nat ->
  copied E out resp = (take k (Body resp), Some e).
Proof.
  unfold copied. intros -> Hk.
  destruct (Nat.ltb_spec k (length (Body resp))); [reflexivity|lia].
Qed.

(** The destination does not exist and can be created: its content is the
    bytes copied. *)
Lemma writeToFileFromURL_absent fileloc u headers cookies s req resp :
  outbound E (userAgent s) u headers cookies = Returns (inl req) ->
  serve E (sent s) req = inl resp ->
  fs s !! fileloc = None ->
  create_err E fileloc = None ->
  exists s',
    writeToFileFromURL E fileloc u headers cookies s
      = (Returns (Z.of_nat (length (fst (copied E fileloc resp))),
                  snd (copied E fileloc resp)), s') /\
    fs s' = <[fileloc := fst (copied E fileloc resp)]> (fs s) /\
    sent s' = (sent s ++ [req])%list /\
    userAgent s' = userAgent s /\
    mkdirs s' = (mkdirs s ++ [filepath_Dir E fileloc])%list.
Proof.
  intros [Hu Hd]%outbound_inl Hs Hf Hc.
  unfold writeToFileFromURL, http_NewRequest. rewrite Hu. run. rewrite Hd, Hs.
  destruct (ParseInt _) as [len [perr|]];
    repeat (run; rewrite ?Hf, ?Hc);
    destruct (copied E fileloc resp) as [written cerr]; run;
    rewrite lookup_insert_eq; cbn [from_option id];
    rewrite drop_nil, insert_insert_eq, app_nil_r;
    eexists; (split; [reflexivity|]); repeat split; reflexivity.
Qed.

(** The request is answered and the destination opens, or is created.
    If the write does not fail, the destination holds the whole body the
    stream delivered, over the start of what it held, and the count is the
    length of that body, returned with the error that ended the stream, if
    any.  If the write fails after [k] bytes, the first [k] bytes of the
    body are there and [k] is returned with the error of the write. *)
Lemma writeToFileFromURL_stores fileloc u headers cookies s req resp :
  outbound E (userAgent s) u headers cookies = Returns (inl req) ->
  serve E (sent s) req = inl resp ->
  match fs s !! fileloc with
  | Some _ => rdwr_err E fileloc
  | None => create_err E fileloc
  end = None ->
  (write_fault E fileloc = None \/
     (exists k e, write_fault E fileloc = Some (k, e) /\
                  (length (Body resp) <= k)%nat) ->
   exists s',
     writeToFileFromURL E fileloc u headers cookies s
       = (Returns (Z.of_nat (length (Body resp)), BodyErr resp), s') /\
     fs s' = <[fileloc := (Body resp ++ drop (length (Body resp))
                             (default [] (fs s !! fileloc)))%list]> (fs s) /\
     sent s' = (sent s ++ [req])%list) /\
  (forall (k : nat) (e : error),
     write_fault E fileloc = Some (k, e) ->
     (k < length (Body resp))%nat ->
     exists s',
       writeToFileFromURL E fileloc u headers cookies s
         = (Returns (Z.of_nat k, Some e), s') /\
       fs s' = <[fileloc := (take k (Body resp) ++
                             drop k (default [] (fs s !! fileloc)))%list]>
                 (fs s) /\
       sent s' = (sent s ++ [req])%list).
Proof.
  intros Ho Hs Hopen.
  assert (Hrun : exists s',
            writeToFileFromURL E fileloc u headers cookies s
              = (Returns (Z.of_nat (length (fst (copied E fileloc resp))),
                          snd (copied E fileloc resp)), s') /\
            fs s' = <[fileloc := (fst (copied E fileloc resp) ++
                        drop (length (fst (copied E fileloc resp)))
                          (default [] (fs s !! fileloc)))%list]> (fs s) /\
            sent s' = (sent s ++ [req])%list).
  { destruct (fs s !! fileloc) as [old|] eqn:Hf.
    - destruct (writeToFileFromURL_existing fileloc u headers cookies s req
                  resp old Ho Hs Hf Hopen) as (s' & Hr & Hfs & Hsent & _).
      exists s'. repeat split; assumption.
    - destruct (writeToFileFromURL_absent fileloc u headers cookies s req
                  resp Ho Hs Hf Hopen) as (s' & Hr & Hfs & Hsent & _).
      exists s'. split; [exact Hr|]. split; [|exact Hsent].
      cbn [from_option id]. rewrite drop_nil, app_nil_r. exact Hfs. }
  destruct Hrun as (s' & Hr & Hfs & Hsent). split.
  - intros Hw. rewrite (copied_whole fileloc resp Hw) in Hr, Hfs.
    exists s'. repeat split; assumption.
  - intros k e Hw Hk. rewrite (copied_cut fileloc resp k e Hw Hk) in Hr, Hfs.
    cbn [fst snd] in Hr, Hfs.
    rewrite length_take, Nat.min_l in Hr, Hfs by lia.
    exists s'. repeat split; assumption.
Qed.

End Run.

(** ** Conditional download *)

Section Conditional.

Context (E : Env).

(** The two ways [DownloadFile] reaches the unconditional download for a
    destination that exists: the advertised length cannot be used, or it is
    not the size read from the file.  Either way the download starts in the
    state the preliminary request has left. *)
Lemma DownloadFile_length_unknown
    (fileloc u : string) (headers : list (string * string))
    (cookies : option (list (option Cookie))) (s : State)
    (req : Request) (head : Response) (data : list byte) :
  outbound E (userAgent s) u headers cookies = Returns (inl req) ->
  fs s !! fileloc = Some data ->
  serve E (sent s) req = inl head ->
  length_unknown head ->
  DownloadFile E fileloc u headers cookies s
    = writeToFileFromURL E fileloc u headers cookies (add_sent req s).
Proof.
  intros [Hu Hd]%outbound_inl Hf Hs Hl.
  unfold DownloadFile, http_NewRequest. rewrite Hu. run. rewrite Hd.
  repeat (run; rewrite ?Hf, ?Hs).
  destruct Hl as [Hl|Hl].
  - rewrite Hl. reflexivity.
  - destruct (_ =? _); [reflexivity|].
    destruct (ParseInt _) as [n [perr|]]; [reflexivity|].
    exfalso. apply Hl. reflexivity.
Qed.

Lemma DownloadFile_size_differs
    (fileloc u : string) (headers : list (string * string))
    (cookies : option (list (option Cookie))) (s : State)
    (req : Request) (head : Response) (data : list byte) (n : Z) :
  outbound E (userAgent s) u headers cookies = Returns (inl req) ->
  fs s !! fileloc = Some data ->
  serve E (sent s) req = inl head ->
  ParseInt (Header_Get (RespHeader head) "Content-Length") = (n, None) ->
  open_err E fileloc = None ->
  stat_err E fileloc = None ->
  Z.of_nat (length data) <> n ->
  DownloadFile E fileloc u headers cookies s
    = writeToFileFromURL E fileloc u headers cookies (add_sent req s).
Proof.
  intros [Hu Hd]%outbound_inl Hf Hs Hp Ho Hst Hne.
  unfold DownloadFile, http_NewRequest. rewrite Hu. run. rewrite Hd.
  repeat (run; rewrite ?Hf, ?Hs).
  destruct (_ =? _); [reflexivity|]. rewrite Hp.
  repeat (run; rewrite ?Hf, ?Ho, ?Hst).
  cbn [from_option id].
  destruct (Z.eqb_spec (Z.of_nat (length data)) n) as [Heq|_];
    [contradiction|reflexivity].
Qed.

(** The sizes differ and the download goes through: the destination is
    overwritten in place, and is as long as the longer of the old content
    and the bytes received. *)
Lemma DownloadFile_overwrites_in_place
    (fileloc u : string) (headers : list (string * string))
    (cookies : option (list (option Cookie))) (s : State)
    (req : Request) (head resp : Response) (data : list byte) (n : Z) :
  outbound E (userAgent s) u headers cookies = Returns (inl req) ->
  fs s !! fileloc = Some data ->
  serve E (sent s) req = inl head ->
  ParseInt (Header_Get (RespHeader head) "Content-Length") = (n, None) ->
  open_err E fileloc = None ->
  stat_err E fileloc = None ->
  Z.of_nat (length data) <> n ->
  serve E (sent s ++ [req])%list req = inl resp ->
  rdwr_err E fileloc = None ->
  exists (written : list byte) (err : option error) (s' : State),
    DownloadFile E fileloc u headers cookies s
      = (Returns (Z.of_nat (length written), err), s') /\
    fs s' !! fileloc = Some (written ++ drop (length written) data)%list /\
    length <$> fs s' !! fileloc
      = Some (Nat.max (length written) (length data)).
Proof.
  intros Ho Hf Hs Hp Hop Hst Hne Hs2 Hrw.
  rewrite (DownloadFile_size_differs _ _ _ _ _ _ _ _ _ Ho Hf Hs Hp Hop Hst Hne).
  destruct (writeToFileFromURL_existing E fileloc u headers cookies
              (add_sent req s) req resp data Ho Hs2 Hf Hrw)
    as (s' & Hrun & Hfs & _).
  exists (fst (copied E fileloc resp)), (snd (copied E fileloc resp)), s'.
  split; [exact Hrun|]. rewrite Hfs, lookup_insert_eq.
  split; [reflexivity|]. cbn [fmap option_fmap option_map].
  rewrite in_place_length. reflexivity.
Qed.

(** The preliminary request fails: its error is returned and nothing else is
    done. *)
Lemma DownloadFile_probe_error
    (fileloc u : string) (headers : list (string * string))
    (cookies : option (list (option Cookie))) (s : State)
    (req : Request) (data : list byte) (err : error) :
  outbound E (userAgent s) u headers cookies = Returns (inl req) ->
  fs s !! fileloc = Some data ->
  serve E (sent s) req = inr err ->
  DownloadFile E fileloc u headers cookies s
    = (Returns (0%Z, Some err), add_sent req s).
Proof.
  intros [Hu Hd]%outbound_inl Hf Hs.
  unfold DownloadFile, http_NewRequest. rewrite Hu. run. rewrite Hd.
  repeat (run; rewrite ?Hf, ?Hs). reflexivity.
Qed.

(** C1.  The destination exists, the preliminary request is answered and its
    [Content-Length] parses to the size that [os.Open] and [Stat] read from
    the destination, which is the length of its content [data]: then
    [DownloadFile] returns zero and no error, the file system is as before,
    the preliminary request is the only one sent, and the one line printed
    is the skip message.  Nothing relates [data] to the body of the
    response. *)
Theorem C1_skip_when_sizes_agree
    (fileloc u : string) (headers : list (string * string))
    (cookies : option (list (option Cookie))) (s : State)
    (req : Request) (head : Response) (data : list byte) :
  outbound E (userAgent s) u headers cookies = Returns (inl req) ->
  fs s !! fileloc = Some data ->
  serve E (sent s) req = inl head ->
  ParseInt (Header_Get (RespHeader head) "Content-Length")
    = (Z.of_nat (length data), None) ->
  open_err E fileloc = None ->
  stat_err E fileloc = None ->
  exists s',
    DownloadFile E fileloc u headers cookies s = (Returns (0%Z, None), s') /\
    fs s' = fs s /\
    sent s' = (sent s ++ [req])%list /\
    output s' =
      (output s ++
       [Printf_line E "Skipping" fileloc (Z.of_nat (length data))])%list.
Proof.
  intros [Hu Hd]%outbound_inl Hf Hs Hp Ho Hst.
  unfold DownloadFile, http_NewRequest. rewrite Hu. run. rewrite Hd.
  repeat (run; rewrite ?Hf, ?Hs).
  destruct (Header_Get (RespHeader head) "Content-Length") as [|c cl] eqn:Hcl;
    [discriminate Hp|].
  cbn [String.eqb]. rewrite Hp.
  repeat (run; rewrite ?Hf, ?Ho, ?Hst).
  cbn [from_option id]. rewrite Z.eqb_refl.
  eexists. split; [reflexivity|]. repeat split; reflexivity.
Qed.

(** C2.  No file at the destination: [DownloadFile] is the unconditional
    download, run in the state the call started in, so no preliminary
    request has gone out.  When its one request is answered and the file
    can be created, then, the write not failing, the file holds the whole
    body the stream delivered and the count returned is the length of that
    body, with the error that ended the stream, if any (none for a body
    that arrived whole); a write that fails after [k] bytes leaves the
    first [k] bytes of the body in the file and returns [k] with the error
    of the write. *)
Theorem C2_absent_file_downloads_unconditionally
    (fileloc u : string) (headers : list (string * string))
    (cookies : option (list (option Cookie))) (s : State) :
  fs s !! fileloc = None ->
  DownloadFile E fileloc u headers cookies s
    = writeToFileFromURL E fileloc u headers cookies s /\
  forall (req : Request) (resp : Response),
    outbound E (userAgent s) u headers cookies = Returns (inl req) ->
    serve E (sent s) req = inl resp ->
    create_err E fileloc = None ->
    (write_fault E fileloc = None \/
       (exists k e, write_fault E fileloc = Some (k, e) /\
                    (length (Body resp) <= k)%nat) ->
     exists s' : State,
       DownloadFile E fileloc u headers cookies s
         = (Returns (Z.of_nat (length (Body resp)), BodyErr resp), s') /\
       fs s' = <[fileloc := Body resp]> (fs s) /\
       sent s' = (sent s ++ [req])%list) /\
    (forall (k : nat) (e : error),
       write_fault E fileloc = Some (k, e) ->
       (k < length (Body resp))%nat ->
       exists s' : State,
         DownloadFile E fileloc u headers cookies s
           = (Returns (Z.of_nat k, Some e), s') /\
         fs s' = <[fileloc := take k (Body resp)]> (fs s) /\
         sent s' = (sent s ++ [req])%list).
Proof.
  intros Hf.
  assert (Heq : DownloadFile E fileloc u headers cookies s
                = writeToFileFromURL E fileloc u headers cookies s).
  { unfold DownloadFile.
    destruct (http_NewRequest E u) as [req0|err] eqn:Hn.
    - run.
      destruct (decorate E (userAgent s) headers cookies req0) as [req|] eqn:Hd.
      + run. rewrite Hf. reflexivity.
      + unfold writeToFileFromURL. rewrite Hn. run. rewrite Hd. reflexivity.
    - unfold writeToFileFromURL. rewrite Hn. reflexivity. }
  split; [exact Heq|].
  intros req resp Ho Hs Hc. rewrite Heq.
  assert (Hopen : match fs s !! fileloc with
                  | Some _ => rdwr_err E fileloc
                  | None => create_err E fileloc
                  end = None) by (rewrite Hf; exact Hc).
  destruct (writeToFileFromURL_stores E fileloc u headers cookies s req resp
              Ho Hs Hopen) as [Hwhole Hcut].
  rewrite Hf in Hwhole, Hcut. cbn [from_option id] in Hwhole, Hcut.
  split.
  - intros Hw. destruct (Hwhole Hw) as (s' & Hr & Hfs & Hsent).
    rewrite drop_nil, app_nil_r in Hfs. exists s'. repeat split; assumption.
  - intros k e Hw Hk. destruct (Hcut k e Hw Hk) as (s' & Hr & Hfs & Hsent).
    rewrite drop_nil, app_nil_r in Hfs. exists s'. repeat split; assumption.
Qed.

(** C6.  The destination exists, the preliminary request is answered and its
    [Content-Length] parses, but [os.Open] fails, or [Stat] on the opened
    file does: [DownloadFile] returns zero and that error.  The state it
    leaves holds the preliminary request and nothing else new: no second
    request, no write, no message. *)
Theorem C6_local_io_error_is_returned
    (fileloc u : string) (headers : list (string * string))
    (cookies : option (list (option Cookie))) (s : State)
    (req : Request) (head : Response) (data : list byte) (n : Z) (err : error) :
  outbound E (userAgent s) u headers cookies = Returns (inl req) ->
  fs s !! fileloc = Some data ->
  serve E (sent s) req = inl head ->
  ParseInt (Header_Get (RespHeader head) "Content-Length") = (n, None) ->
  open_err E fileloc = Some err \/
    (open_err E fileloc = None /\ stat_err E fileloc = Some err) ->
  DownloadFile E fileloc u headers cookies s
    = (Returns (0%Z, Some err), add_sent req s).
Proof.
  intros [Hu Hd]%outbound_inl Hf Hs Hp Hio.
  unfold DownloadFile, http_NewRequest. rewrite Hu. run. rewrite Hd.
  repeat (run; rewrite ?Hf, ?Hs).
  destruct (Header_Get (RespHeader head) "Content-Length") as [|c cl] eqn:Hcl;
    [discriminate Hp|].
  cbn [String.eqb]. rewrite Hp.
  destruct Hio as [Ho|[Ho Hst]];
    repeat (run; rewrite ?Hf, ?Ho, ?Hst); reflexivity.
Qed.

(** C4, amended.  The destination exists.  If the preliminary request
    fails, [DownloadFile] returns its error with a zero count and downloads
    nothing.  If it is answered and the [Content-Length] is absent, empty or
    rejected by [ParseInt], or is a negative number while the destination
    opens and stats, [DownloadFile] is the unconditional download started
    after the preliminary request.  When the request of that download is
    answered and the destination opens for writing, then, the write not
    failing, the whole body the stream delivered lies over the start of the
    destination and its length is returned, with the error that ended the
    stream, if any; a write that fails after [k] bytes leaves the first [k]
    bytes of the body there and returns [k] with the error of the write. *)
Theorem C4_fallback_when_length_unusable
    (fileloc u : string) (headers : list (string * string))
    (cookies : option (list (option Cookie))) (s : State)
    (req : Request) (data : list byte) :
  outbound E (userAgent s) u headers cookies = Returns (inl req) ->
  fs s !! fileloc = Some data ->
  (forall err : error,
     serve E (sent s) req = inr err ->
     DownloadFile E fileloc u headers cookies s
       = (Returns (0%Z, Some err), add_sent req s)) /\
  (forall head : Response,
     serve E (sent s) req = inl head ->
     length_unknown head \/
       ((fst (ParseInt (Header_Get (RespHeader head) "Content-Length")) < 0)%Z /\
        open_err E fileloc = None /\ stat_err E fileloc = None) ->
     DownloadFile E fileloc u headers cookies s
       = writeToFileFromURL E fileloc u headers cookies (add_sent req s) /\
     forall resp : Response,
       serve E (sent s ++ [req])%list req = inl resp ->
       rdwr_err E fileloc = None ->
       (write_fault E fileloc = None \/
          (exists k e, write_fault E fileloc = Some (k, e) /\
                       (length (Body resp) <= k)%nat) ->
        exists s' : State,
          DownloadFile E fileloc u headers cookies s
            = (Returns (Z.of_nat (length (Body resp)), BodyErr resp), s') /\
          fs s' = <[fileloc := (Body resp ++
                                drop (length (Body resp)) data)%list]> (fs s) /\
          sent s' = (sent s ++ [req; req])%list) /\
       (forall (k : nat) (e : error),
          write_fault E fileloc = Some (k, e) ->
          (k < length (Body resp))%nat ->
          exists s' : State,
            DownloadFile E fileloc u headers cookies s
              = (Returns (Z.of_nat k, Some e), s') /\
            fs s' = <[fileloc := (take k (Body resp) ++ drop k data)%list]>
                      (fs s) /\
            sent s' = (sent s ++ [req; req])%list)).
Proof.
  intros Ho Hf. split.
  - intros err Hs. exact (DownloadFile_probe_error _ _ _ _ _ _ _ _ Ho Hf Hs).
  - intros head Hs Hcase.
    assert (Heq : DownloadFile E fileloc u headers cookies s
                  = writeToFileFromURL E fileloc u headers cookies
                      (add_sent req s)).
    { destruct Hcase as [Hl|(Hneg & Hop & Hst)].
      - exact (DownloadFile_length_unknown _ _ _ _ _ _ _ _ Ho Hf Hs Hl).
      - destruct (ParseInt (Header_Get (RespHeader head) "Content-Length"))
          as [n [perr|]] eqn:Hp.
        + apply (DownloadFile_length_unknown _ _ _ _ _ _ head _ Ho Hf Hs).
          right. rewrite Hp. discriminate.
        + apply (DownloadFile_size_differs _ _ _ _ _ _ head _ n Ho Hf Hs Hp Hop Hst).
          cbn [fst] in Hneg. lia. }
    split; [exact Heq|].
    intros resp Hs2 Hrw. rewrite Heq.
    assert (Hopen : match fs (add_sent req s) !! fileloc with
                    | Some _ => rdwr_err E fileloc
                    | None => create_err E fileloc
                    end = None) by (cbn [fs add_sent]; rewrite Hf; exact Hrw).
    destruct (writeToFileFromURL_stores E fileloc u headers cookies
                (add_sent req s) req resp Ho Hs2 Hopen) as [Hwhole Hcut].
    cbn [fs sent add_sent] in Hwhole, Hcut.
    rewrite Hf, <- app_assoc in Hwhole, Hcut.
    cbn [from_option id app] in Hwhole, Hcut.
    split; [exact Hwhole|exact Hcut].
Qed.

(** C5, amended.  The first request [DownloadFile] sends is the preliminary
    one when the destination exists and the download itself when it does
    not.
    - If the client fails that request, [DownloadFile] returns the error
      with a zero count and nothing is written, whether the destination
      exists or not.
    - If the preliminary request, when there is one, is answered by a
      response without a usable [Content-Length] (absent, empty, or
      rejected by [ParseInt]), [DownloadFile] is the unconditional
      download, whether the destination exists or not and whatever it
      holds.  When the request of that download is answered and the
      destination can be opened for writing, or created, then, the write
      not failing, the whole body the stream delivered lies at the start of
      the destination and its length is returned, with the error that ended
      the stream, if any; a write that fails after [k] bytes leaves the
      first [k] bytes of the body there and returns [k] with the error of
      the write. *)
Theorem C5_unknown_length_forces_download
    (fileloc u : string) (headers : list (string * string))
    (cookies : option (list (option Cookie))) (s : State) (req : Request) :
  outbound E (userAgent s) u headers cookies = Returns (inl req) ->
  (forall err : error,
     serve E (sent s) req = inr err ->
     DownloadFile E fileloc u headers cookies s
       = (Returns (0%Z, Some err), add_sent req s)) /\
  ((forall data : list byte,
      fs s !! fileloc = Some data ->
      exists head : Response,
        serve E (sent s) req = inl head /\ length_unknown head) ->
   let s1 := match fs s !! fileloc with
             | Some _ => add_sent req s
             | None => s
             end in
   let old := default [] (fs s !! fileloc) in
   DownloadFile E fileloc u headers cookies s
     = writeToFileFromURL E fileloc u headers cookies s1 /\
   forall resp : Response,
     serve E (sent s1) req = inl resp ->
     match fs s !! fileloc with
     | Some _ => rdwr_err E fileloc
     | None => create_err E fileloc
     end = None ->
     (write_fault E fileloc = None \/
        (exists k e, write_fault E fileloc = Some (k, e) /\
                     (length (Body resp) <= k)%nat) ->
      exists s' : State,
        DownloadFile E fileloc u headers cookies s
          = (Returns (Z.of_nat (length (Body resp)), BodyErr resp), s') /\
        fs s' = <[fileloc := (Body resp ++
                              drop (length (Body resp)) old)%list]> (fs s) /\
        sent s' = (sent s1 ++ [req])%list) /\
     (forall (k : nat) (e : error),
        write_fault E fileloc = Some (k, e) ->
        (k < length (Body resp))%nat ->
        exists s' : State,
          DownloadFile E fileloc u headers cookies s
            = (Returns (Z.of_nat k, Some e), s') /\
          fs s' = <[fileloc := (take k (Body resp) ++ drop k old)%list]>
                    (fs s) /\
          sent s' = (sent s1 ++ [req])%list)).
Proof.
  intros Ho.
  assert (Habsent : fs s !! fileloc = None ->
            DownloadFile E fileloc u headers cookies s
              = writeToFileFromURL E fileloc u headers cookies s).
  { intros Hf. destruct (outbound_inl _ _ _ _ _ _ Ho) as [Hu Hd].
    unfold DownloadFile, http_NewRequest. rewrite Hu. run. rewrite Hd.
    repeat (run; rewrite ?Hf). reflexivity. }
  split.
  - intros err Hs. destruct (fs s !! fileloc) as [data|] eqn:Hf.
    + exact (DownloadFile_probe_error _ _ _ _ _ _ _ _ Ho Hf Hs).
    + rewrite (Habsent eq_refl).
      exact (writeToFileFromURL_net_error E _ _ _ _ _ _ _ Ho Hs).
  - intros Hprobe s1 old.
    assert (Heq : DownloadFile E fileloc u headers cookies s
                  = writeToFileFromURL E fileloc u headers cookies s1).
    { subst s1. destruct (fs s !! fileloc) as [data|] eqn:Hf.
      - destruct (Hprobe data eq_refl) as (head & Hs & Hl).
        exact (DownloadFile_length_unknown _ _ _ _ _ _ _ _ Ho Hf Hs Hl).
      - exact (Habsent eq_refl). }
    split; [exact Heq|].
    intros resp Hs2 Hopen. rewrite Heq.
    assert (Hua : userAgent s1 = userAgent s)
      by (subst s1; destruct (fs s !! fileloc); reflexivity).
    assert (Hfs1 : fs s1 = fs s)
      by (subst s1; destruct (fs s !! fileloc); reflexivity).
    rewrite <- Hua in Ho. rewrite <- Hfs1 in Hopen.
    destruct (writeToFileFromURL_stores E fileloc u headers cookies
                s1 req resp Ho Hs2 Hopen) as [Hwhole Hcut].
    rewrite Hfs1 in Hwhole, Hcut. split; [exact Hwhole|exact Hcut].
Qed.

End Conditional.

(** The destination holds [hello]; the server advertises five bytes and
    would send other ones: nothing is fetched. *)
Lemma C1_witness :
  let E := Sample.env
             (Sample.always (inl (Sample.response 200 (Some "5") "HELP!")))
             None None in
  let s := Sample.state Sample.hello in
  exists s',
    DownloadFile E "a.txt" "http://h/a" [] (Some []) s
      = (Returns (0%Z, None), s') /\
    fs s' = fs s /\
    sent s' = (sent s ++ [Sample.request "http://h/a"])%list /\
    output s' = (output s ++ [Printf_line E "Skipping" "a.txt" 5])%list.
Proof.
  intros E s.
  apply (C1_skip_when_sizes_agree E "a.txt" "http://h/a" [] (Some []) s
           (Sample.request "http://h/a")
           (Sample.response 200 (Some "5") "HELP!")
           (list_byte_of_string "hello"));
    vm_compute; reflexivity.
Defined.

(** An empty disk: one request, and the two bytes of the body are the
    file. *)
Lemma C2_witness :
  let E := Sample.env
             (Sample.always (inl (Sample.response 200 (Some "2") "hi")))
             None None in
  let s := Sample.state ∅ in
  fs s !! "a.txt" = None /\
  DownloadFile E "a.txt" "http://h/a" [] (Some []) s
    = writeToFileFromURL E "a.txt" "http://h/a" [] (Some []) s /\
  exists s' : State,
    DownloadFile E "a.txt" "http://h/a" [] (Some []) s
      = (Returns (2%Z, None), s') /\
    fs s' = <["a.txt" := list_byte_of_string "hi"]> (fs s) /\
    sent s' = (sent s ++ [Sample.request "http://h/a"])%list.
Proof.
  intros E s.
  assert (Hf : fs s !! "a.txt" = None) by reflexivity.
  split; [exact Hf|].
  destruct (C2_absent_file_downloads_unconditionally
              E "a.txt" "http://h/a" [] (Some []) s Hf) as [Heq Hrun].
  split; [exact Heq|].
  assert (Ho : outbound E (userAgent s) "http://h/a" [] (Some [])
               = Returns (inl (Sample.request "http://h/a")))
    by (vm_compute; reflexivity).
  apply (proj1 (Hrun (Sample.request "http://h/a")
                     (Sample.response 200 (Some "2") "hi")
                     Ho eq_refl eq_refl)).
  left. reflexivity.
Defined.

(** C3, on an input.  The destination holds the five bytes [hello]; the
    server advertises two bytes and sends [hi].  [DownloadFile] returns 2
    without error, and the file then holds the five bytes [hillo]: the two
    received, followed by what was left of the old content. *)
Example C3_shorter_body_keeps_old_tail :
  let E := Sample.env
             (Sample.always (inl (Sample.response 200 (Some "2") "hi")))
             None None in
  let r := DownloadFile E "a.txt" "http://h/a" [] (Some [])
             (Sample.state Sample.hello) in
  fst r = Returns (2%Z, None) /\
  fs (snd r) !! "a.txt" = Some (list_byte_of_string "hillo") /\
  length <$> fs (snd r) !! "a.txt" = Some 5%nat.
Proof. vm_compute. repeat split; reflexivity. Qed.

(** The first request is refused, a second one would be answered: the claim
    C4 has [DownloadFile] go on to the download, the code returns the
    error of the first request. *)
Lemma C4_counterexample :
  let E := Sample.env
             (Sample.second_try (Sample.response 200 (Some "2") "hi"))
             None None in
  let s := Sample.state Sample.hello in
  let req := Sample.request "http://h/a" in
  fst (DownloadFile E "a.txt" "http://h/a" [] (Some []) s)
    = Returns (0%Z, Some "connection refused") /\
  fs (snd (DownloadFile E "a.txt" "http://h/a" [] (Some []) s)) = fs s /\
  fst (writeToFileFromURL E "a.txt" "http://h/a" [] (Some []) (add_sent req s))
    = Returns (2%Z, None) /\
  DownloadFile E "a.txt" "http://h/a" [] (Some []) s
    <> writeToFileFromURL E "a.txt" "http://h/a" [] (Some []) (add_sent req s).
Proof.
  intros E s req. repeat split; try (vm_compute; reflexivity).
  intros H. apply (f_equal fst) in H. vm_compute in H. discriminate H.
Qed.

(** A response without [Content-Length] for a destination that holds
    [hello]: two requests, and [hi] lies over the start of the file. *)
Lemma C4_witness :
  let E := Sample.env
             (Sample.always (inl (Sample.response 200 None "hi")))
             None None in
  let s := Sample.state Sample.hello in
  let req := Sample.request "http://h/a" in
  (outbound E (userAgent s) "http://h/a" [] (Some []) = Returns (inl req) /\
   fs s !! "a.txt" = Some (list_byte_of_string "hello")) /\
  DownloadFile E "a.txt" "http://h/a" [] (Some []) s
    = writeToFileFromURL E "a.txt" "http://h/a" [] (Some []) (add_sent req s) /\
  exists s' : State,
    DownloadFile E "a.txt" "http://h/a" [] (Some []) s
      = (Returns (2%Z, None), s') /\
    fs s' = <["a.txt" := list_byte_of_string "hillo"]> (fs s) /\
    sent s' = (sent s ++ [req; req])%list.
Proof.
  intros E s req.
  assert (Ho : outbound E (userAgent s) "http://h/a" [] (Some [])
               = Returns (inl req)) by (vm_compute; reflexivity).
  assert (Hf : fs s !! "a.txt" = Some (list_byte_of_string "hello"))
    by reflexivity.
  split; [split; assumption|].
  destruct (proj2 (C4_fallback_when_length_unusable
                     E "a.txt" "http://h/a" [] (Some []) s req
                     (list_byte_of_string "hello") Ho Hf)
                  (Sample.response 200 None "hi") eq_refl)
    as [Heq Hrun].
  - left. left. reflexivity.
  - split; [exact Heq|].
    apply (proj1 (Hrun (Sample.response 200 None "hi") eq_refl eq_refl)).
    left. reflexivity.
Defined.

(** The server sends [Content-Length: abc], which is not a number.  Go's
    client fails the request for it, so no response reaches the package:
    the claim C5 has [DownloadFile] download in full, the code returns the
    error, for a destination that exists and for one that does not, and
    writes nothing. *)
Lemma C5_counterexample :
  let reply := Sample.response 200 (Some "abc") "hi" in
  let E := Sample.env (Sample.always (Sample.through_go_client reply))
             None None in
  let req := Sample.request "http://h/a" in
  (Header_Get (RespHeader reply) "Content-Length" = "abc" /\
   snd (ParseInt "abc") <> None) /\
  DownloadFile E "a.txt" "http://h/a" [] (Some []) (Sample.state Sample.hello)
    = (Returns (0%Z, Some "bad Content-Length"),
       add_sent req (Sample.state Sample.hello)) /\
  DownloadFile E "a.txt" "http://h/a" [] (Some []) (Sample.state ∅)
    = (Returns (0%Z, Some "bad Content-Length"),
       add_sent req (Sample.state ∅)) /\
  fs (snd (DownloadFile E "a.txt" "http://h/a" [] (Some [])
             (Sample.state ∅))) !! "a.txt" = None.
Proof.
  intros reply E req. split; [split; [reflexivity|vm_compute; discriminate]|].
  repeat split; vm_compute; reflexivity.
Qed.

(** A response without [Content-Length] for a destination that holds
    [hello]: the download is made and [hi] lies over the start of the
    file. *)
Lemma C5_witness :
  let E := Sample.env
             (Sample.always (inl (Sample.response 200 None "hi")))
             None None in
  let s := Sample.state Sample.hello in
  let req := Sample.request "http://h/a" in
  DownloadFile E "a.txt" "http://h/a" [] (Some []) s
    = writeToFileFromURL E "a.txt" "http://h/a" [] (Some []) (add_sent req s) /\
  exists s' : State,
    DownloadFile E "a.txt" "http://h/a" [] (Some []) s
      = (Returns (2%Z, None), s') /\
    fs s' = <["a.txt" := list_byte_of_string "hillo"]> (fs s) /\
    sent s' = (sent s ++ [req; req])%list.
Proof.
  intros E s req.
  assert (Ho : outbound E (userAgent s) "http://h/a" [] (Some [])
               = Returns (inl req)) by (vm_compute; reflexivity).
  destruct (proj2 (C5_unknown_length_forces_download
                     E "a.txt" "http://h/a" [] (Some []) s req Ho))
    as [Heq Hrun].
  - intros data _. exists (Sample.response 200 None "hi").
    split; [reflexivity|]. left. reflexivity.
  - split; [exact Heq|].
    destruct (proj1 (Hrun (Sample.response 200 None "hi") eq_refl eq_refl))
      as (s' & Hr & Hfs & Hsent); [left; reflexivity|].
    exists s'. split; [exact Hr|]. split; [exact Hfs|]. exact Hsent.
Defined.

(** The destination cannot be opened for reading. *)
Lemma C6_witness :
  let E := Sample.env
             (Sample.always (inl (Sample.response 200 (Some "2") "hi")))
             (Some "permission denied") None in
  let s := Sample.state Sample.hello in
  DownloadFile E "a.txt" "http://h/a" [] (Some []) s
    = (Returns (0%Z, Some "permission denied"),
       add_sent (Sample.request "http://h/a") s).
Proof.
  intros E s.
  apply (C6_local_io_error_is_returned E "a.txt" "http://h/a" [] (Some []) s
           (Sample.request "http://h/a")
           (Sample.response 200 (Some "2") "hi")
           (list_byte_of_string "hello") 2 "permission denied").
  - vm_compute; reflexivity.
  - reflexivity.
  - reflexivity.
  - vm_compute; reflexivity.
  - left. reflexivity.
Defined.

(** ** Outbound requests *)

(** *** Header names *)

Lemma canon_char_lower (b : bool) (c : ascii) :
  canon_char b (lower c) = canon_char b c.
Proof. destruct b, c as [[] [] [] [] [] [] [] []]; reflexivity. Qed.

Lemma lower_canon_char (b : bool) (c : ascii) :
  lower (canon_char b c) = lower c.
Proof. destruct b, c as [[] [] [] [] [] [] [] []]; reflexivity. Qed.

Lemma valid_lower (c : ascii) :
  validHeaderFieldByte (lower c) = validHeaderFieldByte c.
Proof. destruct c as [[] [] [] [] [] [] [] []]; reflexivity. Qed.

Lemma valid_canon_char (b : bool) (c : ascii) :
  validHeaderFieldByte (canon_char b c) = validHeaderFieldByte c.
Proof. destruct b, c as [[] [] [] [] [] [] [] []]; reflexivity. Qed.

Lemma canon_case_lower (s : string) :
  forall b, canon_case b (string_lower s) = canon_case b s.
Proof.
  induction s as [|c s IH]; intros b; cbn [string_lower canon_case];
    [reflexivity|].
  rewrite canon_char_lower, IH. reflexivity.
Qed.

Lemma lower_canon_case (s : string) :
  forall b, string_lower (canon_case b s) = string_lower s.
Proof.
  induction s as [|c s IH]; intros b; cbn [string_lower canon_case];
    [reflexivity|].
  rewrite lower_canon_char, IH. reflexivity.
Qed.

Lemma all_valid_lower (s : string) : all_valid (string_lower s) = all_valid s.
Proof.
  induction s as [|c s IH]; cbn [string_lower all_valid]; [reflexivity|].
  rewrite valid_lower, IH. reflexivity.
Qed.

Lemma all_valid_canon_case (s : string) :
  forall b, all_valid (canon_case b s) = all_valid s.
Proof.
  induction s as [|c s IH]; intros b; cbn [canon_case all_valid];
    [reflexivity|].
  rewrite valid_canon_char, IH. reflexivity.
Qed.

(** Names that differ in case only have one canonical key, ... *)
Lemma canonical_key_fold (k d : string) :
  all_valid d = true -> EqualFold k d ->
  CanonicalMIMEHeaderKey k = CanonicalMIMEHeaderKey d.
Proof.
  unfold EqualFold, CanonicalMIMEHeaderKey. intros Hd Hkd.
  assert (Hk : all_valid k = true)
    by (rewrite <- all_valid_lower, Hkd, all_valid_lower; exact Hd).
  rewrite Hk, Hd.
  rewrite <- (canon_case_lower k), <- (canon_case_lower d), Hkd. reflexivity.
Qed.

(** ... and only they do. *)
Lemma canonical_key_fold_inv (k d : string) :
  all_valid d = true ->
  CanonicalMIMEHeaderKey k = CanonicalMIMEHeaderKey d -> EqualFold k d.
Proof.
  unfold EqualFold, CanonicalMIMEHeaderKey. intros Hd. rewrite Hd.
  destruct (all_valid k) eqn:Hk; intros Heq.
  - rewrite <- (lower_canon_case k true), Heq. apply lower_canon_case.
  - rewrite Heq, all_valid_canon_case, Hd in Hk. discriminate Hk.
Qed.

(** *** Strings *)

Lemma append_assoc (a b c : string) : (a +:+ b) +:+ c = a +:+ (b +:+ c).
Proof.
  induction a as [|x a IH]; [reflexivity|].
  change (String x ((a +:+ b) +:+ c) = String x (a +:+ (b +:+ c))).
  rewrite IH. reflexivity.
Qed.

Lemma append_empty_r (a : string) : a +:+ "" = a.
Proof.
  induction a as [|x a IH]; [reflexivity|].
  change (String x (a +:+ "") = String x a). rewrite IH. reflexivity.
Qed.

Lemma append_nonempty (a b : string) : b <> "" -> a +:+ b <> "".
Proof. destruct a as [|x a]; [intros H; exact H|discriminate]. Qed.

Lemma prefix_append (p t : string) : String.prefix p (p +:+ t) = true.
Proof.
  induction p as [|x p IH]; [destruct t; reflexivity|].
  change (String.prefix (String x p) (String x (p +:+ t)) = true).
  cbn [String.prefix]. destruct (ascii_dec x x); [exact IH|contradiction].
Qed.

Lemma occurs_append (pre p post : string) :
  occurs p (pre +:+ p +:+ post) = true.
Proof.
  induction pre as [|x pre IH].
  - change (occurs p (p +:+ post) = true).
    destruct (p +:+ post) eqn:Heq; cbn [occurs]; rewrite <- Heq, prefix_append;
      reflexivity.
  - change (occurs p (String x (pre +:+ p +:+ post)) = true).
    cbn [occurs]. rewrite IH. apply orb_true_r.
Qed.

Lemma concat_cons (sep x : string) (l : list string) :
  l <> [] -> String.concat sep (x :: l) = x +:+ sep +:+ String.concat sep l.
Proof. destruct l; [contradiction|reflexivity]. Qed.

Lemma concat_occurs (sep x : string) (l : list string) :
  In x l -> exists pre post : string, String.concat sep l = pre +:+ x +:+ post.
Proof.
  induction l as [|y l IH]; [contradiction|].
  intros [->|Hin].
  - exists "". destruct l as [|z l].
    + exists "". cbn [String.concat].
      change (x = x +:+ ""). symmetry. apply append_empty_r.
    + exists (sep +:+ String.concat sep (z :: l)). reflexivity.
  - destruct (IH Hin) as (pre & post & Heq).
    destruct l as [|z l]; [contradiction|].
    exists (y +:+ sep +:+ pre), post.
    rewrite concat_cons by discriminate. rewrite Heq.
    rewrite !append_assoc. reflexivity.
Qed.

(** *** The header loop and the cookie loop *)

Section Requests.

Context (E : Env).

Lemma setHeaders_snoc (hs : list (string * string)) (k v : string) (r : Request) :
  setHeaders (hs ++ [(k, v)]) r
    = set_ReqHeader (Header_Set (ReqHeader (setHeaders hs r)) k v)
        (setHeaders hs r).
Proof. unfold setHeaders. rewrite fold_left_app. reflexivity. Qed.

(** A key no supplied header canonicalises to keeps its value. *)
Lemma setHeaders_keeps (K : string) (hs : list (string * string)) (r : Request) :
  (forall k v, In (k, v) hs -> CanonicalMIMEHeaderKey k <> K) ->
  ReqHeader (setHeaders hs r) !! K = ReqHeader r !! K.
Proof.
  induction hs as [|[k v] hs IH] using rev_ind; intros Hno; [reflexivity|].
  rewrite setHeaders_snoc. cbn [ReqHeader set_ReqHeader]. unfold Header_Set.
  rewrite lookup_insert_ne.
  - apply IH. intros k' v' Hin. apply (Hno k' v'), in_or_app. left. exact Hin.
  - apply (Hno k v), in_or_app. right. left. reflexivity.
Qed.

(** A key some supplied header canonicalises to holds the value of one of
    them (the one the loop visits last). *)
Lemma setHeaders_overrides (K : string) (hs : list (string * string)) (r : Request) :
  (exists k v, In (k, v) hs /\ CanonicalMIMEHeaderKey k = K) ->
  exists k v, In (k, v) hs /\ CanonicalMIMEHeaderKey k = K /\
              ReqHeader (setHeaders hs r) !! K = Some [v].
Proof.
  induction hs as [|[k0 v0] hs IH] using rev_ind.
  - intros (k & v & [] & _).
  - intros (k & v & Hin & Hk).
    rewrite setHeaders_snoc. cbn [ReqHeader set_ReqHeader]. unfold Header_Set.
    destruct (decide (CanonicalMIMEHeaderKey k0 = K)) as [Heq|Hne].
    + exists k0, v0. split; [apply in_or_app; right; left; reflexivity|].
      split; [exact Heq|]. rewrite Heq. apply lookup_insert_eq.
    + apply in_app_or in Hin as [Hin|[Hin|[]]].
      * destruct IH as (k' & v' & Hin' & Hk' & Hl); [eauto|].
        exists k', v'. split; [apply in_or_app; left; exact Hin'|].
        split; [exact Hk'|]. rewrite lookup_insert_ne by exact Hne. exact Hl.
      * injection Hin as -> ->. contradiction.
Qed.

Lemma cookie_pair_nonempty (c : Cookie) : cookie_pair E c <> "".
Proof. unfold cookie_pair. apply append_nonempty. discriminate. Qed.

Lemma AddCookie_header (c : Cookie) (r : Request) :
  ReqHeader (AddCookie E c r)
    = <["Cookie" :=
          [if String.eqb (Header_Get (ReqHeader r) "Cookie") ""
           then cookie_pair E c
           else Header_Get (ReqHeader r) "Cookie" +:+ "; " +:+ cookie_pair E c]]>
        (ReqHeader r).
Proof.
  unfold AddCookie.
  destruct (String.eqb (Header_Get (ReqHeader r) "Cookie") ""); reflexivity.
Qed.

Lemma AddCookie_Method (c : Cookie) (r : Request) :
  Method (AddCookie E c r) = Method r.
Proof.
  unfold AddCookie.
  destruct (String.eqb (Header_Get (ReqHeader r) "Cookie") ""); reflexivity.
Qed.

Lemma AddCookie_URL (c : Cookie) (r : Request) :
  URL (AddCookie E c r) = URL r.
Proof.
  unfold AddCookie.
  destruct (String.eqb (Header_Get (ReqHeader r) "Cookie") ""); reflexivity.
Qed.

(** The cookie loop over a slice without nil entries: the [Cookie] header
    ends up holding what it held before, if anything, and then the pairs of
    the cookies in order; no other header changes. *)
Lemma addCookies_line (cs : list Cookie) :
  forall r : Request,
  exists r' : Request,
    addCookies E (map Some cs) r = Returns r' /\
    Method r' = Method r /\ URL r' = URL r /\
    (forall K, K <> "Cookie" -> ReqHeader r' !! K = ReqHeader r !! K) /\
    (cs = [] -> r' = r) /\
    (cs <> [] ->
     ReqHeader r' !! "Cookie" =
       Some [String.concat "; "
               ((if String.eqb (Header_Get (ReqHeader r) "Cookie") "" then []
                 else [Header_Get (ReqHeader r) "Cookie"])
                ++ map (cookie_pair E) cs)]).
Proof.
  induction cs as [|c cs IH]; intros r.
  - exists r. cbn [map addCookies]. repeat split; try reflexivity. congruence.
  - cbn [map addCookies].
    destruct (IH (AddCookie E c r)) as (r' & Hrun & Hm & Hu & Hother & Hnil & Hcons).
    exists r'. split; [exact Hrun|].
    split; [rewrite Hm; apply AddCookie_Method|].
    split; [rewrite Hu; apply AddCookie_URL|].
    split.
    { intros K HK. rewrite Hother by exact HK. rewrite AddCookie_header.
      apply lookup_insert_ne. congruence. }
    split; [discriminate|]. intros _.
    set (cur := Header_Get (ReqHeader r) "Cookie") in *.
    set (v1 := if String.eqb cur "" then cookie_pair E c
               else cur +:+ "; " +:+ cookie_pair E c).
    assert (Hget : Header_Get (ReqHeader (AddCookie E c r)) "Cookie" = v1).
    { unfold Header_Get. rewrite AddCookie_header.
      change (CanonicalMIMEHeaderKey "Cookie") with "Cookie".
      rewrite lookup_insert_eq. reflexivity. }
    assert (Hv1 : v1 <> "").
    { subst v1. destruct (String.eqb cur "").
      - apply cookie_pair_nonempty.
      - rewrite <- append_assoc. apply append_nonempty, cookie_pair_nonempty. }
    destruct cs as [|c' cs].
    + rewrite (Hnil eq_refl), AddCookie_header, lookup_insert_eq.
      fold cur. subst v1. destruct (String.eqb cur ""); reflexivity.
    + rewrite Hcons by discriminate. rewrite Hget.
      destruct (String.eqb_spec v1 "") as [Hv|_]; [contradiction|].
      f_equal. f_equal. subst v1.
      destruct (String.eqb cur ""); [reflexivity|].
      cbn [app map]. rewrite !concat_cons by discriminate.
      rewrite !append_assoc. reflexivity.
Qed.

(** *** What the public functions send *)

Lemma writeToFileFromURL_sent
    (fileloc u : string) (headers : list (string * string))
    (cookies : option (list (option Cookie))) (s : State) (req : Request) :
  outbound E (userAgent s) u headers cookies = Returns (inl req) ->
  sent (snd (writeToFileFromURL E fileloc u headers cookies s))
    = (sent s ++ [req])%list.
Proof.
  intros [Hu Hd]%outbound_inl.
  unfold writeToFileFromURL, http_NewRequest. rewrite Hu. run. rewrite Hd. run.
  destruct (serve E (sent s) req) as [resp|err]; [|reflexivity].
  destruct (ParseInt _) as [len [perr|]]; run;
    destruct (fs s !! fileloc) as [old|] eqn:Hf; repeat (run; rewrite ?Hf);
    try (destruct (rdwr_err E fileloc); run; [reflexivity|]);
    try (destruct (create_err E fileloc); run; [reflexivity|]);
    destruct (copied E fileloc resp); reflexivity.
Qed.

Lemma GetBodyFromURL_sent
    (u : string) (headers : list (string * string))
    (cookies : option (list (option Cookie))) (s : State) (req : Request) :
  outbound E (userAgent s) u headers cookies = Returns (inl req) ->
  sent (snd (GetBodyFromURL E u headers cookies s)) = (sent s ++ [req])%list.
Proof.
  intros [Hu Hd]%outbound_inl.
  unfold GetBodyFromURL, http_NewRequest. rewrite Hu. run. rewrite Hd. run.
  destruct (serve E (sent s) req); reflexivity.
Qed.

Lemma GetRespFromURL_sent
    (u : string) (headers : list (string * string))
    (cookies : option (list (option Cookie))) (s : State) (req : Request) :
  outbound E (userAgent s) u headers cookies = Returns (inl req) ->
  sent (snd (GetRespFromURL E u headers cookies s)) = (sent s ++ [req])%list.
Proof.
  intros [Hu Hd]%outbound_inl.
  unfold GetRespFromURL, http_NewRequest. rewrite Hu. run. rewrite Hd. run.
  destruct (serve E (sent s) req); reflexivity.
Qed.

Lemma DownloadFile_sent
    (fileloc u : string) (headers : list (string * string))
    (cookies : option (list (option Cookie))) (s : State) (req : Request) :
  outbound E (userAgent s) u headers cookies = Returns (inl req) ->
  sent (snd (DownloadFile E fileloc u headers cookies s)) = (sent s ++ [req])%list \/
  sent (snd (DownloadFile E fileloc u headers cookies s))
    = (sent s ++ [req; req])%list.
Proof.
  intros Ho.
  assert (Hw1 := writeToFileFromURL_sent fileloc u headers cookies s req Ho).
  assert (Hw2 := writeToFileFromURL_sent fileloc u headers cookies
                   (add_sent req s) req Ho).
  cbn [sent add_sent] in Hw2. rewrite <- app_assoc in Hw2. cbn [app] in Hw2.
  destruct (outbound_inl _ _ _ _ _ _ Ho) as [Hu Hd].
  unfold DownloadFile, http_NewRequest. rewrite Hu. run. rewrite Hd. run.
  destruct (fs s !! fileloc) as [data|] eqn:Hf; run; [|left; exact Hw1].
  destruct (serve E (sent s) req) as [head|err]; [|left; reflexivity].
  destruct (String.eqb _ _); [right; exact Hw2|].
  destruct (ParseInt _) as [n [perr|]]; [right; exact Hw2|].
  repeat (run; rewrite ?Hf).
  destruct (open_err E fileloc); run; [left; reflexivity|].
  destruct (stat_err E fileloc); run; [left; reflexivity|].
  destruct (_ =? _)%Z; [left; reflexivity|right; exact Hw2].
Qed.

(** C7, amended.  For a URL that makes a request, and cookies none of which
    is nil: the three public functions send the request [req] (and
    [DownloadFile] nothing but it, once or twice), on which
    - a header name [d] that a supplied header has, in whatever case, holds
      the value of such a supplied header, whatever it held before;
    - [User-Agent] holds the process-wide user agent if no supplied header
      is named so;
    - the [Cookie] header holds the pairs of all the cookies, in order, if
      no supplied header is named [Cookie] in whatever case. *)
Theorem C7_headers_override_and_cookies_attached
    (u : string) (headers : list (string * string)) (cs : list Cookie)
    (s : State) :
  url_err E u = None ->
  exists req : Request,
    outbound E (userAgent s) u headers (Some (map Some cs))
      = Returns (inl req) /\
    sent (snd (GetBodyFromURL E u headers (Some (map Some cs)) s))
      = (sent s ++ [req])%list /\
    sent (snd (GetRespFromURL E u headers (Some (map Some cs)) s))
      = (sent s ++ [req])%list /\
    (forall fileloc : string,
       sent (snd (DownloadFile E fileloc u headers (Some (map Some cs)) s))
         = (sent s ++ [req])%list \/
       sent (snd (DownloadFile E fileloc u headers (Some (map Some cs)) s))
         = (sent s ++ [req; req])%list) /\
    (forall d : string,
       all_valid d = true ->
       (exists k v, In (k, v) headers /\ EqualFold k d) ->
       exists k v, In (k, v) headers /\ EqualFold k d /\
                   ReqHeader req !! CanonicalMIMEHeaderKey d = Some [v]) /\
    ((forall k v, In (k, v) headers -> ~ EqualFold k "User-Agent") ->
     ReqHeader req !! "User-Agent" = Some [userAgent s]) /\
    ((forall k v, In (k, v) headers -> ~ EqualFold k "Cookie") ->
     Header_Get (ReqHeader req) "Cookie" = cookie_line E cs /\
     Forall (fun c => attached E c req) cs).
Proof.
  intros Hu.
  set (req0 := set_ReqHeader
                 (Header_Set ∅ "User-Agent" (userAgent s))
                 {| Method := "GET"; URL := u; ReqHeader := ∅ |}).
  destruct (addCookies_line cs req0)
    as (r1 & Hrun & _ & _ & Hother & Hnil & Hcons).
  exists (setHeaders headers r1).
  assert (Ho : outbound E (userAgent s) u headers (Some (map Some cs))
               = Returns (inl (setHeaders headers r1))).
  { unfold outbound, http_NewRequest. rewrite Hu. unfold decorate.
    cbn [ReqHeader]. fold req0. rewrite Hrun. reflexivity. }
  split; [exact Ho|].
  split; [exact (GetBodyFromURL_sent _ _ _ _ _ Ho)|].
  split; [exact (GetRespFromURL_sent _ _ _ _ _ Ho)|].
  split; [intros fileloc; exact (DownloadFile_sent _ _ _ _ _ _ Ho)|].
  split; [|split].
  - intros d Hd (k & v & Hin & Hkd).
    destruct (setHeaders_overrides (CanonicalMIMEHeaderKey d) headers r1)
      as (k' & v' & Hin' & Hk' & Hl).
    { exists k, v. split; [exact Hin|]. apply canonical_key_fold; assumption. }
    exists k', v'. split; [exact Hin'|]. split; [|exact Hl].
    apply canonical_key_fold_inv; assumption.
  - intros Hno. rewrite setHeaders_keeps.
    + rewrite Hother by discriminate. apply lookup_insert_eq.
    + intros k v Hin Hk. apply (Hno k v Hin).
      apply canonical_key_fold_inv; [reflexivity|exact Hk].
  - intros Hno.
    assert (Hget : Header_Get (ReqHeader (setHeaders headers r1)) "Cookie"
                   = cookie_line E cs).
    { unfold Header_Get. change (CanonicalMIMEHeaderKey "Cookie") with "Cookie".
      rewrite setHeaders_keeps.
      - destruct cs as [|c cs].
        + rewrite (Hnil eq_refl). reflexivity.
        + rewrite Hcons by discriminate. reflexivity.
      - intros k v Hin Hk. apply (Hno k v Hin).
        apply canonical_key_fold_inv; [reflexivity|exact Hk]. }
    split; [exact Hget|].
    apply Forall_forall. intros c Hc. unfold attached. rewrite Hget.
    apply concat_occurs, in_map, list_elem_of_In, Hc.
Qed.

(** C10, amended.  With a nil [cookies] pointer each public function
    panics once the request is made, before anything is sent, written or
    printed; when [http.NewRequest] rejects the URL, which is checked first,
    each returns that error and does not panic. *)
Theorem C10_nil_cookies_panic_after_request_construction
    (fileloc u : string) (headers : list (string * string)) (s : State) :
  (url_err E u = None ->
   GetBodyFromURL E u headers None s = (Panics, s) /\
   GetRespFromURL E u headers None s = (Panics, s) /\
   DownloadFile E fileloc u headers None s = (Panics, s)) /\
  (forall err : error,
   url_err E u = Some err ->
   GetBodyFromURL E u headers None s = (Returns ([], Some err), s) /\
   GetRespFromURL E u headers None s = (Returns (None, Some err), s) /\
   DownloadFile E fileloc u headers None s = (Returns (0%Z, Some err), s)).
Proof.
  split.
  - intros Hu.
    unfold GetBodyFromURL, GetRespFromURL, DownloadFile, http_NewRequest.
    rewrite Hu. repeat split; reflexivity.
  - intros err Hu.
    unfold GetBodyFromURL, GetRespFromURL, DownloadFile, http_NewRequest.
    rewrite Hu. repeat split; reflexivity.
Qed.

(** C8.  When the request is answered and the body stream ends cleanly,
    [GetBodyFromURL] returns the body and no error; the status code of the
    response is not looked at.  An error it returns is the one of
    [http.NewRequest], the one of [client.Do], or the one that ended the
    body stream. *)
Theorem C8_body_returned_whatever_the_status
    (u : string) (headers : list (string * string))
    (cookies : option (list (option Cookie))) (s : State) :
  (forall (req : Request) (resp : Response),
     outbound E (userAgent s) u headers cookies = Returns (inl req) ->
     serve E (sent s) req = inl resp ->
     BodyErr resp = None ->
     GetBodyFromURL E u headers cookies s
       = (Returns (Body resp, None), add_sent req s)) /\
  (forall (body : list byte) (err : error),
     fst (GetBodyFromURL E u headers cookies s) = Returns (body, Some err) ->
     url_err E u = Some err \/
     exists req : Request,
       outbound E (userAgent s) u headers cookies = Returns (inl req) /\
       (serve E (sent s) req = inr err \/
        exists resp : Response,
          serve E (sent s) req = inl resp /\ BodyErr resp = Some err)).
Proof.
  split.
  - intros req resp [Hu Hd]%outbound_inl Hs Hb.
    unfold GetBodyFromURL, http_NewRequest. rewrite Hu. run. rewrite Hd. run.
    rewrite Hs, Hb. reflexivity.
  - intros body err. unfold GetBodyFromURL, outbound, http_NewRequest.
    destruct (url_err E u) as [e|] eqn:Hu.
    + cbn. intros H. injection H as _ ->. left. reflexivity.
    + run.
      destruct (decorate E (userAgent s) headers cookies _) as [req|];
        [|discriminate]. run.
      intros H. right. exists req. split; [reflexivity|].
      destruct (serve E (sent s) req) as [resp|e].
      * right. exists resp. split; [reflexivity|].
        cbn in H. injection H as _ ->. reflexivity.
      * left. cbn in H. injection H as _ ->. reflexivity.
Qed.

End Requests.

(** ** The length header on the write path *)

Section WritePath.

Context (E : Env).

Lemma replace_length_header (v : option string) (resp : Response) :
  Header_Get (RespHeader (replace_length v resp)) "Content-Length"
    = default "" v.
Proof.
  unfold Header_Get, replace_length. cbn [RespHeader].
  change (CanonicalMIMEHeaderKey "Content-Length") with "Content-Length".
  destruct v as [x|].
  - rewrite lookup_insert_eq. reflexivity.
  - rewrite lookup_delete_eq. reflexivity.
Qed.

Lemma decorate_relabel (v : option string) (ua : string)
    (headers : list (string * string))
    (cookies : option (list (option Cookie))) (req : Request) :
  decorate (relabel v E) ua headers cookies req
    = decorate E ua headers cookies req.
Proof. reflexivity. Qed.

Lemma copied_relabel (v : option string) (out : string) (resp : Response) :
  copied (relabel v E) out (replace_length v resp) = copied E out resp.
Proof. reflexivity. Qed.

(** C9.  Take any server and have it send, in place of the
    [Content-Length] of each response, a value [v] that [ParseInt] rejects
    (or no such header).  [writeToFileFromURL] then reads that value and
    fails to parse it, and what it returns, count and error, the file
    system, the requests sent and the directories made are what they are
    with the server left alone; only the lines printed may differ. *)
Theorem C9_unparsable_length_changes_only_the_log
    (v : option string) (fileloc u : string)
    (headers : list (string * string))
    (cookies : option (list (option Cookie))) (s : State) :
  snd (ParseInt (default "" v)) <> None ->
  (forall resp : Response,
     snd (ParseInt
            (Header_Get (RespHeader (replace_length v resp)) "Content-Length"))
       <> None) /\
  let r := writeToFileFromURL E fileloc u headers cookies s in
  let r' := writeToFileFromURL (relabel v E) fileloc u headers cookies s in
  fst r' = fst r /\
  fs (snd r') = fs (snd r) /\
  sent (snd r') = sent (snd r) /\
  mkdirs (snd r') = mkdirs (snd r) /\
  userAgent (snd r') = userAgent (snd r).
Proof.
  intros Hv. split.
  - intros resp. rewrite replace_length_header. exact Hv.
  - unfold writeToFileFromURL, http_NewRequest.
    change (url_err (relabel v E) u) with (url_err E u).
    destruct (url_err E u) as [e|]; [repeat split; reflexivity|]. run.
    rewrite decorate_relabel.
    destruct (decorate E (userAgent s) headers cookies _) as [req|];
      [|repeat split; reflexivity]. run.
    change (serve (relabel v E) (sent s) req)
      with (match serve E (sent s) req with
            | inl resp => inl (replace_length v resp)
            | inr err => inr err
            end).
    destruct (serve E (sent s) req) as [resp|e]; [|repeat split; reflexivity].
    destruct (ParseInt (Header_Get (RespHeader resp) "Content-Length"))
      as [len [perr|]];
      destruct (ParseInt (Header_Get (RespHeader (replace_length v resp))
                            "Content-Length")) as [len' [perr'|]];
      run;
      (destruct (fs s !! fileloc) as [old|] eqn:Hf; repeat (run; rewrite ?Hf));
      change (rdwr_err (relabel v E) fileloc) with (rdwr_err E fileloc);
      change (create_err (relabel v E) fileloc) with (create_err E fileloc);
      try (destruct (rdwr_err E fileloc); run; [repeat split; reflexivity|]);
      try (destruct (create_err E fileloc); run; [repeat split; reflexivity|]);
      rewrite copied_relabel; destruct (copied E fileloc resp);
      repeat (run; rewrite ?Hf, ?lookup_insert_eq);
      repeat split; reflexivity.
Qed.

End WritePath.

(** ** The theorems on concrete worlds *)

(** A header named [Cookie] is supplied together with the cookie [sid]: the
    request carries the header's value and the cookie is not on it. *)
Lemma C7_counterexample :
  let E := Sample.env (Sample.always (inl Sample.not_found)) None None in
  exists req : Request,
    outbound E "dl v0.0.1" "http://h/a" [("Cookie", "theme=dark")]
      (Some [Some Sample.sid]) = Returns (inl req) /\
    ReqHeader req
      = <["Cookie" := ["theme=dark"]]> {[ "User-Agent" := ["dl v0.0.1"] ]} /\
    ~ attached E Sample.sid req.
Proof.
  intros E.
  exists {| Method := "GET"; URL := "http://h/a";
            ReqHeader := <["Cookie" := ["theme=dark"]]>
                           {[ "User-Agent" := ["dl v0.0.1"] ]} |}.
  split; [vm_compute; reflexivity|]. split; [reflexivity|].
  intros (pre & post & H).
  assert (Hocc : occurs (cookie_pair E Sample.sid) "theme=dark" = true).
  { change "theme=dark"
      with (Header_Get
              (<["Cookie" := ["theme=dark"]]>
                 ({[ "User-Agent" := ["dl v0.0.1"] ]}
                    : gmap string (list string))) "Cookie") at 1.
    cbn [ReqHeader] in H. rewrite H. apply occurs_append. }
  vm_compute in Hocc. discriminate Hocc.
Qed.

(** A header [user-agent] in lower case and one cookie. *)
Lemma C7_witness :
  let E := Sample.env (Sample.always (inl Sample.not_found)) None None in
  url_err E "http://h/a" = None /\
  exists req : Request,
    outbound E "dl v0.0.1" "http://h/a" [("user-agent", "curl/8")]
      (Some [Some Sample.sid]) = Returns (inl req) /\
    ReqHeader req !! "User-Agent" = Some ["curl/8"] /\
    Header_Get (ReqHeader req) "Cookie" = "sid=1".
Proof.
  intros E.
  assert (Hu : url_err E "http://h/a" = None) by reflexivity.
  split; [exact Hu|].
  destruct (C7_headers_override_and_cookies_attached
              E "http://h/a" [("user-agent", "curl/8")] [Sample.sid]
              (Sample.state ∅) Hu)
    as (req & Ho & _ & _ & _ & Hov & _ & Hck).
  exists req. split; [exact Ho|]. split.
  - destruct (Hov "User-Agent" eq_refl) as (k & v & Hin & _ & Hl).
    { exists "user-agent", "curl/8". split; [left|]; reflexivity. }
    destruct Hin as [Heq|[]]. injection Heq as <- <-. exact Hl.
  - apply Hck. intros k v [Heq|[]] Hf. injection Heq as <- <-.
    vm_compute in Hf. discriminate Hf.
Defined.

(** A 404 with a body: the body comes back, without error. *)
Lemma C8_witness :
  let E := Sample.env (Sample.always (inl Sample.not_found)) None None in
  let s := Sample.state ∅ in
  StatusCode Sample.not_found = 404%Z /\
  GetBodyFromURL E "http://h/missing" [] (Some []) s
    = (Returns (list_byte_of_string "no such page", None),
       add_sent (Sample.request "http://h/missing") s).
Proof.
  intros E s. split; [reflexivity|].
  apply (proj1 (C8_body_returned_whatever_the_status
                  E "http://h/missing" [] (Some []) s)
               (Sample.request "http://h/missing") Sample.not_found).
  - vm_compute; reflexivity.
  - reflexivity.
  - reflexivity.
Defined.

(** The server's [Content-Length: 2] replaced by [two]. *)
Lemma C9_witness :
  let E := Sample.env
             (Sample.always (inl (Sample.response 200 (Some "2") "hi")))
             None None in
  let s := Sample.state ∅ in
  snd (ParseInt "two") <> None /\
  fst (writeToFileFromURL (relabel (Some "two") E)
         "a.txt" "http://h/a" [] (Some []) s)
    = fst (writeToFileFromURL E "a.txt" "http://h/a" [] (Some []) s) /\
  fs (snd (writeToFileFromURL (relabel (Some "two") E)
             "a.txt" "http://h/a" [] (Some []) s))
    = fs (snd (writeToFileFromURL E "a.txt" "http://h/a" [] (Some []) s)).
Proof.
  intros E s.
  assert (Hv : snd (ParseInt (default "" (Some "two"))) <> None)
    by (vm_compute; discriminate).
  split; [exact Hv|].
  destruct (C9_unparsable_length_changes_only_the_log
              E (Some "two") "a.txt" "http://h/a" [] (Some []) s Hv)
    as (_ & Hret & Hfs & _).
  split; [exact Hret|exact Hfs].
Defined.

(** A URL text that [http.NewRequest] rejects, and a nil [cookies]: each
    function returns the error; none panics. *)
Lemma C10_counterexample :
  let E := Sample.env (Sample.always (inl Sample.not_found)) None None in
  let s := Sample.state ∅ in
  (GetBodyFromURL E ":" [] None s
     = (Returns ([], Some "missing protocol scheme"), s) /\
   GetRespFromURL E ":" [] None s
     = (Returns (None, Some "missing protocol scheme"), s) /\
   DownloadFile E "a.txt" ":" [] None s
     = (Returns (0%Z, Some "missing protocol scheme"), s)) /\
  fst (GetBodyFromURL E ":" [] None s) <> Panics /\
  fst (GetRespFromURL E ":" [] None s) <> Panics /\
  fst (DownloadFile E "a.txt" ":" [] None s) <> Panics.
Proof.
  intros E s. split; [repeat split; reflexivity|].
  repeat split; discriminate.
Qed.

(** A URL that makes a request, and a nil [cookies]. *)
Lemma C10_witness :
  let E := Sample.env (Sample.always (inl Sample.not_found)) None None in
  let s := Sample.state ∅ in
  url_err E "http://h/a" = None /\
  GetBodyFromURL E "http://h/a" [] None s = (Panics, s) /\
  GetRespFromURL E "http://h/a" [] None s = (Panics, s) /\
  DownloadFile E "a.txt" "http://h/a" [] None s = (Panics, s).
Proof.
  intros E s.
  assert (Hu : url_err E "http://h/a" = None) by reflexivity.
  split; [exact Hu|].
  exact (proj1 (C10_nil_cookies_panic_after_request_construction
                  E "a.txt" "http://h/a" [] s) Hu).
Defined.

(** ** Beyond the conditional download: the rest of the package *)

(** *** How each function ends when no request can be sent *)

Section Endings.

Context (E : Env).

Lemma GetBodyFromURL_bad_url u headers cookies s err :
  url_err E u = Some err ->
  GetBodyFromURL E u headers cookies s = (Returns ([], Some err), s).
Proof.
  intros Hu. unfold GetBodyFromURL, http_NewRequest. rewrite Hu. reflexivity.
Qed.

Lemma GetRespFromURL_bad_url u headers cookies s err :
  url_err E u = Some err ->
  GetRespFromURL E u headers cookies s = (Returns (None, Some err), s).
Proof.
  intros Hu. unfold GetRespFromURL, http_NewRequest. rewrite Hu. reflexivity.
Qed.

Lemma DownloadFile_bad_url fileloc u headers cookies s err :
  url_err E u = Some err ->
  DownloadFile E fileloc u headers cookies s = (Returns (0%Z, Some err), s).
Proof.
  intros Hu. unfold DownloadFile, http_NewRequest. rewrite Hu. reflexivity.
Qed.

Lemma GetBodyFromURL_panics u headers cookies s :
  outbound E (userAgent s) u headers cookies = Panics ->
  GetBodyFromURL E u headers cookies s = (Panics, s).
Proof.
  intros [Hu Hd]%outbound_panics.
  unfold GetBodyFromURL, http_NewRequest. rewrite Hu. run. rewrite Hd.
  reflexivity.
Qed.

Lemma GetRespFromURL_panics u headers cookies s :
  outbound E (userAgent s) u headers cookies = Panics ->
  GetRespFromURL E u headers cookies s = (Panics, s).
Proof.
  intros [Hu Hd]%outbound_panics.
  unfold GetRespFromURL, http_NewRequest. rewrite Hu. run. rewrite Hd.
  reflexivity.
Qed.

Lemma DownloadFile_panics fileloc u headers cookies s :
  outbound E (userAgent s) u headers cookies = Panics ->
  DownloadFile E fileloc u headers cookies s = (Panics, s).
Proof.
  intros [Hu Hd]%outbound_panics.
  unfold DownloadFile, http_NewRequest. rewrite Hu. run. rewrite Hd.
  reflexivity.
Qed.

(** The three ways the first statements of a function can end. *)
Lemma outbound_cases ua u headers cookies :
  (exists req, outbound E ua u headers cookies = Returns (inl req)) \/
  (exists err, outbound E ua u headers cookies = Returns (inr err)) \/
  outbound E ua u headers cookies = Panics.
Proof.
  destruct (outbound E ua u headers cookies) as [[req|err]|]; eauto.
Qed.

(** The cookie loop and the header loop leave method and URL alone, and the
    cookie loop touches the [Cookie] header only. *)
Lemma addCookies_frame (cs : list (option Cookie)) :
  forall r r' : Request,
    addCookies E cs r = Returns r' ->
    Method r' = Method r /\ URL r' = URL r /\
    forall K, K <> "Cookie" -> ReqHeader r' !! K = ReqHeader r !! K.
Proof.
  induction cs as [|[c|] cs IH]; intros r r'; cbn [addCookies].
  - intros H. injection H as <-. repeat split; reflexivity.
  - intros H. destruct (IH _ _ H) as (Hm & Hu & Hk).
    rewrite Hm, Hu, AddCookie_Method, AddCookie_URL.
    repeat split; try reflexivity.
    intros K HK. rewrite Hk by exact HK. rewrite AddCookie_header.
    apply lookup_insert_ne. congruence.
  - discriminate.
Qed.

Lemma addCookies_nil_entry (cs : list (option Cookie)) :
  forall r : Request, In None cs -> addCookies E cs r = Panics.
Proof.
  induction cs as [|[c|] cs IH]; intros r Hin; cbn [addCookies].
  - destruct Hin.
  - destruct Hin as [Hin|Hin]; [discriminate Hin|]. apply IH, Hin.
  - reflexivity.
Qed.

Lemma setHeaders_Method_URL (hs : list (string * string)) :
  forall r : Request,
    Method (setHeaders hs r) = Method r /\ URL (setHeaders hs r) = URL r.
Proof.
  induction hs as [|[k v] hs IH] using rev_ind; intros r;
    [split; reflexivity|].
  rewrite setHeaders_snoc. cbn [Method URL set_ReqHeader]. apply IH.
Qed.

Lemma outbound_is_GET ua u headers cookies req :
  outbound E ua u headers cookies = Returns (inl req) -> is_GET_of u req.
Proof.
  intros [_ Hd]%outbound_inl. unfold decorate in Hd.
  destruct cookies as [cs|]; [|discriminate].
  destruct (addCookies E cs _) as [r1|] eqn:Hc; [|discriminate].
  injection Hd as <-.
  destruct (addCookies_frame _ _ _ Hc) as (Hm & Hurl & _).
  destruct (setHeaders_Method_URL headers r1) as [Hm' Hu'].
  split; [rewrite Hm', Hm|rewrite Hu', Hurl]; reflexivity.
Qed.

End Endings.

(** *** What a download can do to the state *)

Section Effects.

Context (E : Env).

(** The destination cannot be opened or created: zero and the error, and
    no file changes. *)
Lemma writeToFileFromURL_open_error
    (fileloc u : string) (headers : list (string * string))
    (cookies : option (list (option Cookie))) (s : State)
    (req : Request) (resp : Response) (err : error) :
  outbound E (userAgent s) u headers cookies = Returns (inl req) ->
  serve E (sent s) req = inl resp ->
  match fs s !! fileloc with
  | Some _ => rdwr_err E fileloc
  | None => create_err E fileloc
  end = Some err ->
  fst (writeToFileFromURL E fileloc u headers cookies s)
    = Returns (0%Z, Some err) /\
  fs (snd (writeToFileFromURL E fileloc u headers cookies s)) = fs s /\
  userAgent (snd (writeToFileFromURL E fileloc u headers cookies s))
    = userAgent s.
Proof.
  intros [Hu Hd]%outbound_inl Hs Herr.
  unfold writeToFileFromURL, http_NewRequest. rewrite Hu. run. rewrite Hd, Hs.
  destruct (ParseInt _) as [len [perr|]];
    (destruct (fs s !! fileloc) as [old|] eqn:Hf;
     repeat (run; rewrite ?Hf, ?Herr));
    repeat split; reflexivity.
Qed.

(** X14.  [writeToFileFromURL], lines 187-204: the response is in hand and
    the destination cannot be opened for writing (it exists) or created (it does
    not).  Zero and that error are returned and no file changes, although
    the request has been sent; for a destination that does not exist
    [os.MkdirAll] has been called on its directory all the same; nothing
    has gone to standard output. *)
Theorem writeToFileFromURL_destination_failure
    (fileloc u : string) (headers : list (string * string))
    (cookies : option (list (option Cookie))) (s : State)
    (req : Request) (resp : Response) (err : error) :
  outbound E (userAgent s) u headers cookies = Returns (inl req) ->
  serve E (sent s) req = inl resp ->
  match fs s !! fileloc with
  | Some _ => rdwr_err E fileloc
  | None => create_err E fileloc
  end = Some err ->
  exists s' : State,
    writeToFileFromURL E fileloc u headers cookies s
      = (Returns (0%Z, Some err), s') /\
    fs s' = fs s /\
    userAgent s' = userAgent s /\
    sent s' = (sent s ++ [req])%list /\
    mkdirs s' = match fs s !! fileloc with
                | Some _ => mkdirs s
                | None => (mkdirs s ++ [filepath_Dir E fileloc])%list
                end /\
    exists dbg : list Line,
      output s' = (output s ++ dbg)%list /\
      Forall (fun l => forall text, l <> Stdout text) dbg.
Proof.
  intros [Hu Hd]%outbound_inl Hs Herr.
  unfold writeToFileFromURL, http_NewRequest. rewrite Hu. run. rewrite Hd, Hs.
  destruct (ParseInt _) as [len [perr|]];
    (destruct (fs s !! fileloc) as [old|] eqn:Hf;
     repeat (run; rewrite ?Hf, ?Herr));
    eexists; (split; [reflexivity|]);
    cbn [fs sent userAgent mkdirs output add_sent add_output add_mkdir set_fs];
    repeat (split; [reflexivity|]);
    rewrite <- ?app_assoc; eexists; (split; [reflexivity|]);
    repeat constructor; discriminate.
Qed.

(** Every way [writeToFileFromURL] can end: either no file has changed and
    it panicked or returned zero with an error, or it returned the number
    of bytes copied and the destination holds them over the start of what
    it held before. *)
Lemma writeToFileFromURL_effect
    (fileloc u : string) (headers : list (string * string))
    (cookies : option (list (option Cookie))) (s : State) :
  userAgent (snd (writeToFileFromURL E fileloc u headers cookies s))
    = userAgent s /\
  ((fs (snd (writeToFileFromURL E fileloc u headers cookies s)) = fs s /\
    (fst (writeToFileFromURL E fileloc u headers cookies s) = Panics \/
     exists err : error,
       fst (writeToFileFromURL E fileloc u headers cookies s)
         = Returns (0%Z, Some err))) \/
   exists (written : list byte) (err : option error),
     fst (writeToFileFromURL E fileloc u headers cookies s)
       = Returns (Z.of_nat (length written), err) /\
     fs (snd (writeToFileFromURL E fileloc u headers cookies s))
       = <[fileloc := (written ++ drop (length written)
                         (default [] (fs s !! fileloc)))%list]> (fs s)).
Proof.
  destruct (outbound_cases E (userAgent s) u headers cookies)
    as [[req Ho]|[[err Ho]|Ho]].
  - destruct (serve E (sent s) req) as [resp|err] eqn:Hs.
    + destruct (match fs s !! fileloc with
                | Some _ => rdwr_err E fileloc
                | None => create_err E fileloc
                end) as [err|] eqn:Hopen.
      * destruct (writeToFileFromURL_open_error
                    fileloc u headers cookies s req resp err Ho Hs Hopen)
          as (Hr & Hfs & Hua).
        split; [exact Hua|]. left. split; [exact Hfs|]. right. eauto.
      * destruct (fs s !! fileloc) as [old|] eqn:Hf.
        -- destruct (writeToFileFromURL_existing E fileloc u headers cookies
                       s req resp old Ho Hs Hf Hopen)
             as (s' & -> & Hfs & _ & Hua & _).
           split; [exact Hua|]. right. eauto.
        -- destruct (writeToFileFromURL_absent E fileloc u headers cookies
                       s req resp Ho Hs Hf Hopen)
             as (s' & -> & Hfs & _ & Hua & _).
           split; [exact Hua|]. right.
           exists (fst (copied E fileloc resp)), (snd (copied E fileloc resp)).
           split; [reflexivity|]. cbn [fst snd from_option id].
           rewrite drop_nil, app_nil_r. exact Hfs.
    + rewrite (writeToFileFromURL_net_error E fileloc u headers cookies
                 s req err Ho Hs).
      split; [reflexivity|]. left. split; [reflexivity|]. right. eauto.
  - apply outbound_inr in Ho.
    rewrite (writeToFileFromURL_bad_url E fileloc u headers cookies s err Ho).
    split; [reflexivity|]. left. split; [reflexivity|]. right. eauto.
  - rewrite (writeToFileFromURL_panics E fileloc u headers cookies s Ho).
    split; [reflexivity|]. left. split; [reflexivity|]. left. reflexivity.
Qed.

(** The same for [DownloadFile], which can also return zero without an
    error. *)
Lemma DownloadFile_effect
    (fileloc u : string) (headers : list (string * string))
    (cookies : option (list (option Cookie))) (s : State) :
  userAgent (snd (DownloadFile E fileloc u headers cookies s))
    = userAgent s /\
  ((fs (snd (DownloadFile E fileloc u headers cookies s)) = fs s /\
    (fst (DownloadFile E fileloc u headers cookies s) = Panics \/
     exists err : option error,
       fst (DownloadFile E fileloc u headers cookies s)
         = Returns (0%Z, err))) \/
   exists (written : list byte) (err : option error),
     fst (DownloadFile E fileloc u headers cookies s)
       = Returns (Z.of_nat (length written), err) /\
     fs (snd (DownloadFile E fileloc u headers cookies s))
       = <[fileloc := (written ++ drop (length written)
                         (default [] (fs s !! fileloc)))%list]> (fs s)).
Proof.
  assert (Hw : forall s0 : State,
            userAgent s0 = userAgent s -> fs s0 = fs s ->
            userAgent (snd (writeToFileFromURL E fileloc u headers cookies s0))
              = userAgent s /\
            ((fs (snd (writeToFileFromURL E fileloc u headers cookies s0))
                = fs s /\
              (fst (writeToFileFromURL E fileloc u headers cookies s0) = Panics \/
               exists err : option error,
                 fst (writeToFileFromURL E fileloc u headers cookies s0)
                   = Returns (0%Z, err))) \/
             exists (written : list byte) (err : option error),
               fst (writeToFileFromURL E fileloc u headers cookies s0)
                 = Returns (Z.of_nat (length written), err) /\
               fs (snd (writeToFileFromURL E fileloc u headers cookies s0))
                 = <[fileloc := (written ++ drop (length written)
                                   (default [] (fs s !! fileloc)))%list]> (fs s))).
  { intros s0 Hua Hfs.
    destruct (writeToFileFromURL_effect fileloc u headers cookies s0)
      as [Hua' Hcase].
    rewrite Hua, Hfs in *. split; [exact Hua'|].
    destruct Hcase as [[Hsame [Hp|[err Hr]]]|Hwr]; eauto 6. }
  destruct (outbound_cases E (userAgent s) u headers cookies)
    as [[req Ho]|[[err Ho]|Ho]].
  - destruct (outbound_inl _ _ _ _ _ _ Ho) as [Hu Hd].
    unfold DownloadFile, http_NewRequest. rewrite Hu. run. rewrite Hd. run.
    destruct (fs s !! fileloc) as [data|] eqn:Hf; run.
    + destruct (serve E (sent s) req) as [head|err];
        [|split; [reflexivity|]; left; split; [reflexivity|]; right; eauto].
      destruct (String.eqb _ _); [apply Hw; reflexivity|].
      destruct (ParseInt _) as [n [perr|]]; [apply Hw; reflexivity|].
      repeat (run; rewrite ?Hf).
      destruct (open_err E fileloc); run;
        [split; [reflexivity|]; left; split; [reflexivity|]; right; eauto|].
      destruct (stat_err E fileloc); run;
        [split; [reflexivity|]; left; split; [reflexivity|]; right; eauto|].
      destruct (_ =? _)%Z; [|apply Hw; reflexivity].
      split; [reflexivity|]. left. split; [reflexivity|]. right. eauto.
    + apply Hw; reflexivity.
  - apply outbound_inr in Ho.
    rewrite (DownloadFile_bad_url E fileloc u headers cookies s err Ho).
    split; [reflexivity|]. left. split; [reflexivity|]. right. eauto.
  - rewrite (DownloadFile_panics E fileloc u headers cookies s Ho).
    split; [reflexivity|]. left. split; [reflexivity|]. left. reflexivity.
Qed.

End Effects.

(** *** Invariants of the public functions *)

Section Invariants.

Context (E : Env).

(** X2.  A destination that exists before [DownloadFile] exists after it and
    is no shorter; the bytes beyond the count returned are the old ones.
    (An existing file is opened with [os.O_RDWR] alone, line 190, and
    written from its start.) *)
Theorem DownloadFile_never_shortens
    (fileloc u : string) (headers : list (string * string))
    (cookies : option (list (option Cookie))) (s : State) (old : list byte) :
  fs s !! fileloc = Some old ->
  exists data' : list byte,
    fs (snd (DownloadFile E fileloc u headers cookies s)) !! fileloc
      = Some data' /\
    (length old <= length data')%nat /\
    (fst (DownloadFile E fileloc u headers cookies s) = Panics -> data' = old) /\
    (forall (n : Z) (err : option error),
       fst (DownloadFile E fileloc u headers cookies s) = Returns (n, err) ->
       drop (Z.to_nat n) data' = drop (Z.to_nat n) old).
Proof.
  intros Hf.
  destruct (DownloadFile_effect E fileloc u headers cookies s)
    as [_ [[Hfs Hr]|(written & err & Hr & Hfs)]]; rewrite Hfs.
  - exists old. split; [exact Hf|]. split; [lia|]. split; [reflexivity|].
    intros n err Hret. reflexivity.
  - rewrite Hf. cbn [from_option id].
    exists (written ++ drop (length written) old)%list.
    split; [apply lookup_insert_eq|]. split; [rewrite in_place_length; lia|].
    split; [rewrite Hr; discriminate|].
    intros n err' Hret. rewrite Hr in Hret. injection Hret as <- <-.
    rewrite Nat2Z.id, drop_app_length. reflexivity.
Qed.

(** X4.  Every request the package sends is a GET of the URL it was given:
    [GetBodyFromURL] and [GetRespFromURL] send at most one, [DownloadFile]
    at most two (its probe is a GET as well), and none of them takes a
    request back. *)
Theorem all_requests_are_GETs
    (fileloc u : string) (headers : list (string * string))
    (cookies : option (list (option Cookie))) (s : State) :
  (exists rest : list Request,
     sent (snd (GetBodyFromURL E u headers cookies s)) = (sent s ++ rest)%list /\
     Forall (is_GET_of u) rest /\ (length rest <= 1)%nat) /\
  (exists rest : list Request,
     sent (snd (GetRespFromURL E u headers cookies s)) = (sent s ++ rest)%list /\
     Forall (is_GET_of u) rest /\ (length rest <= 1)%nat) /\
  (exists rest : list Request,
     sent (snd (DownloadFile E fileloc u headers cookies s))
       = (sent s ++ rest)%list /\
     Forall (is_GET_of u) rest /\ (length rest <= 2)%nat).
Proof.
  destruct (outbound_cases E (userAgent s) u headers cookies)
    as [[req Ho]|[[err Ho]|Ho]].
  - assert (Hget := outbound_is_GET E _ _ _ _ _ Ho).
    split; [|split].
    + exists [req]. rewrite (GetBodyFromURL_sent E _ _ _ _ _ Ho).
      repeat split; [|cbn; lia]. repeat constructor; apply Hget.
    + exists [req]. rewrite (GetRespFromURL_sent E _ _ _ _ _ Ho).
      repeat split; [|cbn; lia]. repeat constructor; apply Hget.
    + destruct (DownloadFile_sent E fileloc _ _ _ _ _ Ho) as [-> | ->];
        [exists [req]|exists [req; req]];
        (repeat split; [|cbn; lia]); repeat constructor; apply Hget.
  - apply outbound_inr in Ho.
    rewrite (GetBodyFromURL_bad_url E _ _ _ _ _ Ho),
            (GetRespFromURL_bad_url E _ _ _ _ _ Ho),
            (DownloadFile_bad_url E fileloc _ _ _ _ _ Ho).
    repeat split; exists []; rewrite app_nil_r;
      (repeat split; [constructor|cbn; lia]).
  - rewrite (GetBodyFromURL_panics E _ _ _ _ Ho),
            (GetRespFromURL_panics E _ _ _ _ Ho),
            (DownloadFile_panics E fileloc _ _ _ _ Ho).
    repeat split; exists []; rewrite app_nil_r;
      (repeat split; [constructor|cbn; lia]).
Qed.

(** X5.  [GetBodyFromURL] and [GetRespFromURL] (lines 55-95) touch nothing
    on the machine: files, directories, standard output and the user agent
    are after the call what they were before it. *)
Theorem fetches_leave_the_machine_alone
    (u : string) (headers : list (string * string))
    (cookies : option (list (option Cookie))) (s : State) :
  let s1 := snd (GetBodyFromURL E u headers cookies s) in
  let s2 := snd (GetRespFromURL E u headers cookies s) in
  (fs s1 = fs s /\ mkdirs s1 = mkdirs s /\ output s1 = output s /\
   userAgent s1 = userAgent s) /\
  (fs s2 = fs s /\ mkdirs s2 = mkdirs s /\ output s2 = output s /\
   userAgent s2 = userAgent s).
Proof.
  unfold GetBodyFromURL, GetRespFromURL, http_NewRequest.
  destruct (url_err E u) as [err|]; [repeat split; reflexivity|]. run.
  destruct (decorate E (userAgent s) headers cookies _) as [req|];
    [|repeat split; reflexivity]. run.
  destruct (serve E (sent s) req) as [resp|err]; repeat split; reflexivity.
Qed.

End Invariants.

(** *** The two fetch functions and the user agent *)

Section Fetch.

Context (E : Env).

(** X7.  [GetBodyFromURL] (lines 55-76) is [GetRespFromURL] followed by
    reading the body to its end: from the same state both send the same
    request and leave the same state; where the second returns a response
    the first returns the bytes its body delivers together with the error
    that ended the stream, if any; where the second returns an error or
    panics, so does the first. *)
Theorem GetBodyFromURL_reads_what_GetRespFromURL_returns
    (u : string) (headers : list (string * string))
    (cookies : option (list (option Cookie))) (s : State) :
  GetBodyFromURL E u headers cookies s =
    match GetRespFromURL E u headers cookies s with
    | (Returns (Some resp, None), s') =>
        (Returns (Body resp, BodyErr resp), s')
    | (Returns (_, Some err), s') => (Returns ([], Some err), s')
    | (Returns (None, None), s') => (Panics, s')
    | (Panics, s') => (Panics, s')
    end.
Proof.
  unfold GetBodyFromURL, GetRespFromURL, http_NewRequest.
  destruct (url_err E u) as [err|]; [reflexivity|]. run.
  destruct (decorate E (userAgent s) headers cookies _) as [req|];
    [|reflexivity]. run.
  destruct (serve E (sent s) req) as [resp|err]; reflexivity.
Qed.

Lemma outbound_user_agent ua u headers cookies req :
  outbound E ua u headers cookies = Returns (inl req) ->
  (forall k v, In (k, v) headers -> ~ EqualFold k "User-Agent") ->
  ReqHeader req !! "User-Agent" = Some [ua].
Proof.
  intros [_ Hd]%outbound_inl Hno. unfold decorate in Hd.
  destruct cookies as [cs|]; [|discriminate].
  destruct (addCookies E cs _) as [r1|] eqn:Hc; [|discriminate].
  injection Hd as <-.
  destruct (addCookies_frame E _ _ _ Hc) as (_ & _ & Hk).
  rewrite setHeaders_keeps.
  - rewrite Hk by discriminate. apply lookup_insert_eq.
  - intros k v Hin Heq. apply (Hno k v Hin).
    apply canonical_key_fold_inv; [reflexivity|exact Heq].
Qed.

(** X8.  [SetUserAgent] (lines 42-44) changes the user agent and nothing
    else, and the value it sets is the [User-Agent] of the request each
    public function sends next, unless a supplied header has that name. *)
Theorem SetUserAgent_reaches_the_next_request
    (ua fileloc u : string) (headers : list (string * string))
    (cookies : option (list (option Cookie))) (s : State) (req : Request) :
  outbound E ua u headers cookies = Returns (inl req) ->
  (forall k v, In (k, v) headers -> ~ EqualFold k "User-Agent") ->
  let s1 := snd (SetUserAgent ua s) in
  (fs s1 = fs s /\ sent s1 = sent s /\ output s1 = output s /\
   mkdirs s1 = mkdirs s) /\
  ReqHeader req !! "User-Agent" = Some [ua] /\
  sent (snd (GetBodyFromURL E u headers cookies s1)) = (sent s ++ [req])%list /\
  sent (snd (GetRespFromURL E u headers cookies s1)) = (sent s ++ [req])%list /\
  (sent (snd (DownloadFile E fileloc u headers cookies s1))
     = (sent s ++ [req])%list \/
   sent (snd (DownloadFile E fileloc u headers cookies s1))
     = (sent s ++ [req; req])%list).
Proof.
  intros Ho Hno s1.
  split; [repeat split; reflexivity|].
  split; [exact (outbound_user_agent _ _ _ _ _ Ho Hno)|].
  split; [exact (GetBodyFromURL_sent E u headers cookies s1 req Ho)|].
  split; [exact (GetRespFromURL_sent E u headers cookies s1 req Ho)|].
  exact (DownloadFile_sent E fileloc u headers cookies s1 req Ho).
Qed.

(** X9.  A nil entry in the cookie slice: once the request is made, each
    public function panics in [req.AddCookie] (lines 62-64, 87-89,
    106-108), having sent nothing and changed nothing. *)
Theorem nil_cookie_entry_panics
    (fileloc u : string) (headers : list (string * string))
    (cs : list (option Cookie)) (s : State) :
  url_err E u = None ->
  In None cs ->
  GetBodyFromURL E u headers (Some cs) s = (Panics, s) /\
  GetRespFromURL E u headers (Some cs) s = (Panics, s) /\
  DownloadFile E fileloc u headers (Some cs) s = (Panics, s).
Proof.
  intros Hu Hin.
  assert (Ho : outbound E (userAgent s) u headers (Some cs) = Panics).
  { unfold outbound, http_NewRequest. rewrite Hu. unfold decorate.
    rewrite (addCookies_nil_entry E cs _ Hin). reflexivity. }
  split; [exact (GetBodyFromURL_panics E _ _ _ _ Ho)|].
  split; [exact (GetRespFromURL_panics E _ _ _ _ Ho)|].
  exact (DownloadFile_panics E fileloc _ _ _ _ Ho).
Qed.

End Fetch.

(** *** The order of the supplied headers *)

Section HeaderOrder.

Context (E : Env).

Lemma setHeaders_cons (k v : string) (hs : list (string * string)) (r : Request) :
  setHeaders ((k, v) :: hs) r
    = setHeaders hs (set_ReqHeader (Header_Set (ReqHeader r) k v) r).
Proof. reflexivity. Qed.

Lemma setHeaders_perm (hs hs' : list (string * string)) :
  Permutation hs hs' ->
  NoDup (header_keys hs) ->
  forall r : Request, setHeaders hs r = setHeaders hs' r.
Proof.
  induction 1 as [|[k v] l l' Hperm IH|[k1 v1] [k2 v2] l|l l' l'' H1 IH1 H2 IH2];
    intros Hnd r.
  - reflexivity.
  - rewrite !setHeaders_cons. apply IH.
    unfold header_keys in Hnd. cbn [map] in Hnd.
    apply NoDup_cons in Hnd. apply Hnd.
  - rewrite !setHeaders_cons. f_equal.
    unfold set_ReqHeader, Header_Set. cbn [Method URL ReqHeader]. f_equal.
    apply insert_insert_ne.
    unfold header_keys in Hnd. cbn [map fst] in Hnd.
    apply NoDup_cons in Hnd as [Hnotin _].
    intros Heq. apply Hnotin. rewrite Heq. left.
  - rewrite IH1 by exact Hnd. apply IH2.
    unfold header_keys in *. rewrite <- H1. exact Hnd.
Qed.

Lemma decorate_perm (hs hs' : list (string * string)) :
  Permutation hs hs' ->
  NoDup (header_keys hs) ->
  forall ua cookies req,
    decorate E ua hs cookies req = decorate E ua hs' cookies req.
Proof.
  intros Hp Hnd ua cookies req. unfold decorate.
  destruct cookies as [cs|]; [|reflexivity].
  destruct (addCookies E cs _) as [r1|]; [|reflexivity].
  rewrite (setHeaders_perm hs hs' Hp Hnd). reflexivity.
Qed.

Lemma writeToFileFromURL_perm (hs hs' : list (string * string)) :
  Permutation hs hs' ->
  NoDup (header_keys hs) ->
  forall fileloc u cookies s,
    writeToFileFromURL E fileloc u hs cookies s
      = writeToFileFromURL E fileloc u hs' cookies s.
Proof.
  intros Hp Hnd fileloc u cookies s.
  unfold writeToFileFromURL.
  destruct (http_NewRequest E u) as [req0|err]; [|reflexivity]. run.
  rewrite (decorate_perm hs hs' Hp Hnd). reflexivity.
Qed.

(** X10.  Go does not fix the order in which [range headers] visits the
    map (lines 65-67 and the like).  When no two supplied names share a
    canonical key, that order is without effect: the three public functions
    return the same and leave the same state for every order. *)
Theorem header_order_is_immaterial
    (hs hs' : list (string * string)) (fileloc u : string)
    (cookies : option (list (option Cookie))) (s : State) :
  Permutation hs hs' ->
  NoDup (header_keys hs) ->
  GetBodyFromURL E u hs cookies s = GetBodyFromURL E u hs' cookies s /\
  GetRespFromURL E u hs cookies s = GetRespFromURL E u hs' cookies s /\
  DownloadFile E fileloc u hs cookies s = DownloadFile E fileloc u hs' cookies s.
Proof.
  intros Hp Hnd.
  assert (Hw := writeToFileFromURL_perm hs hs' Hp Hnd fileloc u cookies).
  unfold GetBodyFromURL, GetRespFromURL, DownloadFile.
  destruct (http_NewRequest E u) as [req0|err]; [|repeat split; reflexivity].
  run. rewrite (decorate_perm hs hs' Hp Hnd).
  split; [reflexivity|]. split; [reflexivity|].
  destruct (decorate E (userAgent s) hs' cookies req0) as [req|];
    [|reflexivity]. run.
  destruct (fs s !! fileloc) as [data|] eqn:Hf; run; [|apply Hw].
  destruct (serve E (sent s) req) as [head|err]; [|reflexivity].
  destruct (String.eqb _ _); [apply Hw|].
  destruct (ParseInt _) as [n [perr|]]; [apply Hw|].
  repeat (run; rewrite ?Hf).
  destruct (open_err E fileloc); run; [reflexivity|].
  destruct (stat_err E fileloc); run; [reflexivity|].
  destruct (_ =? _)%Z; [reflexivity|apply Hw].
Qed.

End HeaderOrder.

(** Two supplied names that differ in case only: the order decides which
    value the request carries. *)
Example header_order_matters_for_equal_names :
  let E := Sample.env (Sample.always (inl Sample.not_found)) None None in
  outbound E "dl v0.0.1" "http://h/a" [("X-Id", "1"); ("x-id", "2")] (Some [])
    <> outbound E "dl v0.0.1" "http://h/a" [("x-id", "2"); ("X-Id", "1")]
         (Some []).
Proof.
  intros E H.
  assert (Hget : forall o1 o2 : outcome (Request + error), o1 = o2 ->
            match o1 with
            | Returns (inl r) => Header_Get (ReqHeader r) "X-Id"
            | _ => ""
            end =
            match o2 with
            | Returns (inl r) => Header_Get (ReqHeader r) "X-Id"
            | _ => ""
            end) by (intros o1 o2 ->; reflexivity).
  apply Hget in H. vm_compute in H. discriminate H.
Qed.

(** *** The status of the response *)

Section Status.

Context (E : Env).

Lemma stdout_of_app (a b : list Line) :
  stdout_of (a ++ b) = (stdout_of a ++ stdout_of b)%list.
Proof.
  induction a as [|[t|c st|t] a IH]; cbn [stdout_of app]; rewrite ?IH;
    reflexivity.
Qed.

Ltac same_stdout :=
  cbn [fst snd output add_output add_sent add_mkdir set_fs];
  rewrite ?stdout_of_app; reflexivity.

Lemma decorate_recode (code : Z) (status ua : string)
    (headers : list (string * string))
    (cookies : option (list (option Cookie))) (req : Request) :
  decorate (recode code status E) ua headers cookies req
    = decorate E ua headers cookies req.
Proof. reflexivity. Qed.

Lemma copied_recode (code : Z) (status out : string) (resp : Response) :
  copied (recode code status E) out (restatus code status resp)
    = copied E out resp.
Proof. reflexivity. Qed.

Lemma writeToFileFromURL_recode
    (code : Z) (status fileloc u : string) (headers : list (string * string))
    (cookies : option (list (option Cookie))) (s : State) :
  fst (writeToFileFromURL (recode code status E) fileloc u headers cookies s)
    = fst (writeToFileFromURL E fileloc u headers cookies s) /\
  fs (snd (writeToFileFromURL (recode code status E) fileloc u headers cookies s))
    = fs (snd (writeToFileFromURL E fileloc u headers cookies s)) /\
  sent (snd (writeToFileFromURL (recode code status E) fileloc u headers cookies s))
    = sent (snd (writeToFileFromURL E fileloc u headers cookies s)) /\
  mkdirs (snd (writeToFileFromURL (recode code status E) fileloc u headers cookies s))
    = mkdirs (snd (writeToFileFromURL E fileloc u headers cookies s)) /\
  userAgent (snd (writeToFileFromURL (recode code status E) fileloc u headers cookies s))
    = userAgent (snd (writeToFileFromURL E fileloc u headers cookies s)) /\
  stdout_of (output (snd (writeToFileFromURL (recode code status E)
                            fileloc u headers cookies s)))
    = stdout_of (output (snd (writeToFileFromURL E fileloc u headers cookies s))).
Proof.
  unfold writeToFileFromURL, http_NewRequest.
  change (url_err (recode code status E) u) with (url_err E u).
  destruct (url_err E u) as [e|]; [repeat split; reflexivity|]. run.
  rewrite decorate_recode.
  destruct (decorate E (userAgent s) headers cookies _) as [req|];
    [|repeat split; reflexivity]. run.
  change (serve (recode code status E) (sent s) req)
    with (match serve E (sent s) req with
          | inl resp => inl (restatus code status resp)
          | inr err => inr err
          end).
  destruct (serve E (sent s) req) as [resp|e]; [|repeat split; reflexivity].
  change (RespHeader (restatus code status resp)) with (RespHeader resp).
  destruct (ParseInt (Header_Get (RespHeader resp) "Content-Length"))
    as [len [perr|]];
    run;
    (destruct (fs s !! fileloc) as [old|] eqn:Hf; repeat (run; rewrite ?Hf));
    change (rdwr_err (recode code status E) fileloc) with (rdwr_err E fileloc);
    change (create_err (recode code status E) fileloc)
      with (create_err E fileloc);
    try (destruct (rdwr_err E fileloc); run; [repeat split; same_stdout|]);
    try (destruct (create_err E fileloc); run; [repeat split; same_stdout|]);
    rewrite copied_recode; destruct (copied E fileloc resp);
    repeat (run; rewrite ?Hf, ?lookup_insert_eq);
    repeat split; same_stdout.
Qed.

(** X11.  Neither [DownloadFile] nor [writeToFileFromURL] looks at the
    status of a response except to log it (line 179): with any server made
    to answer every request with another status code and status text, and
    the same headers and body, [DownloadFile] returns the same, leaves the
    same files, has sent the same requests and has printed the same on
    standard output.  The body of a 404 is written to the destination like
    any other. *)
Theorem DownloadFile_ignores_status
    (code : Z) (status fileloc u : string) (headers : list (string * string))
    (cookies : option (list (option Cookie))) (s : State) :
  fst (DownloadFile (recode code status E) fileloc u headers cookies s)
    = fst (DownloadFile E fileloc u headers cookies s) /\
  fs (snd (DownloadFile (recode code status E) fileloc u headers cookies s))
    = fs (snd (DownloadFile E fileloc u headers cookies s)) /\
  sent (snd (DownloadFile (recode code status E) fileloc u headers cookies s))
    = sent (snd (DownloadFile E fileloc u headers cookies s)) /\
  mkdirs (snd (DownloadFile (recode code status E) fileloc u headers cookies s))
    = mkdirs (snd (DownloadFile E fileloc u headers cookies s)) /\
  userAgent (snd (DownloadFile (recode code status E) fileloc u headers cookies s))
    = userAgent (snd (DownloadFile E fileloc u headers cookies s)) /\
  stdout_of (output (snd (DownloadFile (recode code status E)
                            fileloc u headers cookies s)))
    = stdout_of (output (snd (DownloadFile E fileloc u headers cookies s))).
Proof.
  assert (Hw := writeToFileFromURL_recode code status fileloc u headers cookies).
  unfold DownloadFile, http_NewRequest.
  change (url_err (recode code status E) u) with (url_err E u).
  destruct (url_err E u) as [e|]; [repeat split; reflexivity|]. run.
  rewrite decorate_recode.
  destruct (decorate E (userAgent s) headers cookies _) as [req|];
    [|repeat split; reflexivity]. run.
  destruct (fs s !! fileloc) as [data|] eqn:Hf; run; [|apply Hw].
  change (serve (recode code status E) (sent s) req)
    with (match serve E (sent s) req with
          | inl resp => inl (restatus code status resp)
          | inr err => inr err
          end).
  destruct (serve E (sent s) req) as [head|e]; [|repeat split; reflexivity].
  change (RespHeader (restatus code status head)) with (RespHeader head).
  destruct (String.eqb _ _); [apply Hw|].
  destruct (ParseInt _) as [n [perr|]]; [apply Hw|].
  repeat (run; rewrite ?Hf).
  change (open_err (recode code status E) fileloc) with (open_err E fileloc).
  destruct (open_err E fileloc); run; [repeat split; reflexivity|].
  change (stat_err (recode code status E) fileloc) with (stat_err E fileloc).
  destruct (stat_err E fileloc); run; [repeat split; reflexivity|].
  destruct (_ =? _)%Z; [repeat split; reflexivity|apply Hw].
Qed.

End Status.

(** *** Calling [DownloadFile] again *)

Section Again.

Context (E : Env).

Lemma copied_clean (out : string) (resp : Response) :
  write_fault E out = None -> BodyErr resp = None ->
  copied E out resp = (Body resp, None).
Proof. intros Hw Hb. unfold copied. rewrite Hw, Hb. reflexivity. Qed.

(** The state a skipped download leaves. *)
Lemma DownloadFile_skips
    (fileloc u : string) (headers : list (string * string))
    (cookies : option (list (option Cookie))) (s : State)
    (req : Request) (head : Response) (data : list byte) :
  outbound E (userAgent s) u headers cookies = Returns (inl req) ->
  fs s !! fileloc = Some data ->
  serve E (sent s) req = inl head ->
  ParseInt (Header_Get (RespHeader head) "Content-Length")
    = (Z.of_nat (length data), None) ->
  open_err E fileloc = None ->
  stat_err E fileloc = None ->
  DownloadFile E fileloc u headers cookies s
    = (Returns (0%Z, None),
       add_output (Printf_line E "Skipping" fileloc (Z.of_nat (length data)))
         (add_sent req s)).
Proof.
  intros [Hu Hd]%outbound_inl Hf Hs Hp Ho Hst.
  unfold DownloadFile, http_NewRequest. rewrite Hu. run. rewrite Hd.
  repeat (run; rewrite ?Hf, ?Hs).
  destruct (Header_Get (RespHeader head) "Content-Length") as [|c cl] eqn:Hcl;
    [discriminate Hp|].
  cbn [String.eqb]. rewrite Hp.
  repeat (run; rewrite ?Hf, ?Ho, ?Hst).
  cbn [from_option id]. rewrite Z.eqb_refl. reflexivity.
Qed.

(** The first call of the two theorems below: the server answers every
    request with [resp], whose body arrives whole and whose
    [Content-Length] is the length of that body; no file operation fails;
    the destination is absent or of another size.  The call returns the
    length of the body and the destination holds the body over the start of
    what it held. *)
Lemma DownloadFile_first_call
    (fileloc u : string) (headers : list (string * string))
    (cookies : option (list (option Cookie))) (s : State)
    (req : Request) (resp : Response) :
  outbound E (userAgent s) u headers cookies = Returns (inl req) ->
  (forall hist : list Request, serve E hist req = inl resp) ->
  BodyErr resp = None ->
  ParseInt (Header_Get (RespHeader resp) "Content-Length")
    = (Z.of_nat (length (Body resp)), None) ->
  write_fault E fileloc = None ->
  open_err E fileloc = None ->
  stat_err E fileloc = None ->
  rdwr_err E fileloc = None ->
  create_err E fileloc = None ->
  (forall old, fs s !! fileloc = Some old -> length old <> length (Body resp)) ->
  exists s1 : State,
    DownloadFile E fileloc u headers cookies s
      = (Returns (Z.of_nat (length (Body resp)), None), s1) /\
    fs s1 = <[fileloc := (Body resp ++ drop (length (Body resp))
                            (default [] (fs s !! fileloc)))%list]> (fs s) /\
    userAgent s1 = userAgent s.
Proof.
  intros Ho Hserve Hb Hp Hwf Hop Hst Hrw Hcr Hsize.
  assert (Hc := copied_clean fileloc resp Hwf Hb).
  destruct (fs s !! fileloc) as [old|] eqn:Hf.
  - rewrite (DownloadFile_size_differs E fileloc u headers cookies s req resp
               old _ Ho Hf (Hserve _) Hp Hop Hst)
      by (specialize (Hsize old eq_refl); lia).
    destruct (writeToFileFromURL_existing E fileloc u headers cookies
                (add_sent req s) req resp old Ho (Hserve _) Hf Hrw)
      as (s1 & Hrun & Hfs & _ & Hua & _).
    rewrite Hc in Hrun, Hfs. exists s1. repeat split; assumption.
  - assert (Heq : DownloadFile E fileloc u headers cookies s
                  = writeToFileFromURL E fileloc u headers cookies s).
    { destruct (outbound_inl _ _ _ _ _ _ Ho) as [Hu Hd].
      unfold DownloadFile, http_NewRequest. rewrite Hu. run. rewrite Hd.
      repeat (run; rewrite ?Hf). reflexivity. }
    rewrite Heq.
    destruct (writeToFileFromURL_absent E fileloc u headers cookies s req resp
                Ho (Hserve _) Hf Hcr) as (s1 & Hrun & Hfs & _ & Hua & _).
    rewrite Hc in Hrun, Hfs. exists s1.
    cbn [from_option id fst snd] in *. rewrite drop_nil, app_nil_r.
    repeat split; assumption.
Qed.

(** X12.  The destination does not exist; the server answers every
    request with [resp], whose body arrives whole and whose
    [Content-Length] is the length of that body; creating, writing, opening
    and stat-ing the destination do not fail.  The first call creates the
    file and stores the body, [FileExists] then holds, and a second call
    skips: it returns zero without error and leaves the files alone. *)
Theorem second_call_skips
    (fileloc u : string) (headers : list (string * string))
    (cookies : option (list (option Cookie))) (s : State)
    (req : Request) (resp : Response) :
  outbound E (userAgent s) u headers cookies = Returns (inl req) ->
  fs s !! fileloc = None ->
  (forall hist : list Request, serve E hist req = inl resp) ->
  BodyErr resp = None ->
  ParseInt (Header_Get (RespHeader resp) "Content-Length")
    = (Z.of_nat (length (Body resp)), None) ->
  create_err E fileloc = None ->
  write_fault E fileloc = None ->
  open_err E fileloc = None ->
  stat_err E fileloc = None ->
  exists s1 s2 : State,
    DownloadFile E fileloc u headers cookies s
      = (Returns (Z.of_nat (length (Body resp)), None), s1) /\
    fs s1 = <[fileloc := Body resp]> (fs s) /\
    fst (FileExists fileloc s1) = Returns true /\
    DownloadFile E fileloc u headers cookies s1 = (Returns (0%Z, None), s2) /\
    fs s2 = fs s1.
Proof.
  intros Ho Hf Hserve Hb Hp Hcr Hwf Hop Hst.
  assert (Heq : DownloadFile E fileloc u headers cookies s
                = writeToFileFromURL E fileloc u headers cookies s).
  { destruct (outbound_inl _ _ _ _ _ _ Ho) as [Hu Hd].
    unfold DownloadFile, http_NewRequest. rewrite Hu. run. rewrite Hd.
    repeat (run; rewrite ?Hf). reflexivity. }
  destruct (writeToFileFromURL_absent E fileloc u headers cookies s req resp
              Ho (Hserve _) Hf Hcr) as (s1 & Hrun & Hfs & _ & Hua & _).
  rewrite (copied_clean fileloc resp Hwf Hb) in Hrun, Hfs.
  cbn [fst snd] in Hrun, Hfs. rewrite <- Heq in Hrun.
  assert (Hf1 : fs s1 !! fileloc = Some (Body resp))
    by (rewrite Hfs; apply lookup_insert_eq).
  exists s1. eexists. split; [exact Hrun|]. split; [exact Hfs|].
  split; [unfold FileExists, gets; cbn [fst]; rewrite Hf1; reflexivity|].
  rewrite <- Hua in Ho.
  split; [exact (DownloadFile_skips fileloc u headers cookies s1 req resp
                   (Body resp) Ho Hf1 (Hserve _) Hp Hop Hst)|].
  reflexivity.
Qed.

(** X13.  Under the same conditions, with a destination longer than the
    body: the first call returns the length of the body and leaves a file
    as long as before, the body followed by the old tail; a second call
    does not skip: it fetches the body again, returns its length again and
    leaves the same file.  So it goes at every later call. *)
Theorem longer_destination_is_fetched_every_time
    (fileloc u : string) (headers : list (string * string))
    (cookies : option (list (option Cookie))) (s : State)
    (req : Request) (resp : Response) (old : list byte) :
  outbound E (userAgent s) u headers cookies = Returns (inl req) ->
  (forall hist : list Request, serve E hist req = inl resp) ->
  BodyErr resp = None ->
  ParseInt (Header_Get (RespHeader resp) "Content-Length")
    = (Z.of_nat (length (Body resp)), None) ->
  write_fault E fileloc = None ->
  open_err E fileloc = None ->
  stat_err E fileloc = None ->
  rdwr_err E fileloc = None ->
  create_err E fileloc = None ->
  fs s !! fileloc = Some old ->
  (length (Body resp) < length old)%nat ->
  exists s1 s2 : State,
    DownloadFile E fileloc u headers cookies s
      = (Returns (Z.of_nat (length (Body resp)), None), s1) /\
    fs s1 = <[fileloc := (Body resp ++ drop (length (Body resp)) old)%list]>
              (fs s) /\
    DownloadFile E fileloc u headers cookies s1
      = (Returns (Z.of_nat (length (Body resp)), None), s2) /\
    fs s2 = fs s1 /\
    sent s2 = (sent s1 ++ [req; req])%list.
Proof.
  intros Ho Hserve Hb Hp Hwf Hop Hst Hrw Hcr Hf Hlong.
  destruct (DownloadFile_first_call fileloc u headers cookies s req resp
              Ho Hserve Hb Hp Hwf Hop Hst Hrw Hcr) as (s1 & Hrun & Hfs & Hua).
  { intros old' Hf'. rewrite Hf in Hf'. injection Hf' as <-. lia. }
  rewrite Hf in Hfs. cbn [from_option id] in Hfs.
  set (data1 := (Body resp ++ drop (length (Body resp)) old)%list) in *.
  assert (Hf1 : fs s1 !! fileloc = Some data1)
    by (rewrite Hfs; apply lookup_insert_eq).
  assert (Hlen : length data1 = length old)
    by (subst data1; rewrite in_place_length; lia).
  rewrite <- Hua in Ho.
  destruct (DownloadFile_first_call fileloc u headers cookies s1 req resp
              Ho Hserve Hb Hp Hwf Hop Hst Hrw Hcr) as (s2 & Hrun2 & Hfs2 & _).
  { intros old' Hf'. rewrite Hf1 in Hf'. injection Hf' as <-. lia. }
  exists s1, s2. split; [exact Hrun|]. split; [exact Hfs|].
  split; [exact Hrun2|]. split.
  - rewrite Hfs2, Hf1. cbn [from_option id]. subst data1.
    rewrite drop_app_length. apply insert_id. exact Hf1.
  - destruct (DownloadFile_sent E fileloc u headers cookies s1 req Ho)
      as [Hone|Htwo]; [|rewrite Hrun2 in Htwo; exact Htwo].
    exfalso.
    assert (Heq := DownloadFile_size_differs E fileloc u headers cookies s1
                     req resp data1 _ Ho Hf1 (Hserve _) Hp Hop Hst).
    rewrite Heq in Hone by lia.
    rewrite (writeToFileFromURL_sent E fileloc u headers cookies
               (add_sent req s1) req Ho) in Hone.
    cbn [sent add_sent] in Hone. rewrite <- app_assoc in Hone.
    apply app_inv_head in Hone. discriminate Hone.
Qed.

End Again.

(** *** A body that breaks off *)

Section Partial.

Context (E : Env).

(** X15.  The destination does not exist, the request is answered and the
    file created, and the body stream ends in an error after some bytes:
    [DownloadFile] returns the number of bytes received together with that
    error (line 208), and the file stays on disk holding those bytes;
    nothing removes it. *)
Theorem broken_body_leaves_partial_file
    (fileloc u : string) (headers : list (string * string))
    (cookies : option (list (option Cookie))) (s : State)
    (req : Request) (resp : Response) (err : error) :
  outbound E (userAgent s) u headers cookies = Returns (inl req) ->
  fs s !! fileloc = None ->
  serve E (sent s) req = inl resp ->
  BodyErr resp = Some err ->
  write_fault E fileloc = None ->
  create_err E fileloc = None ->
  exists s' : State,
    DownloadFile E fileloc u headers cookies s
      = (Returns (Z.of_nat (length (Body resp)), Some err), s') /\
    fs s' = <[fileloc := Body resp]> (fs s) /\
    fst (FileExists fileloc s') = Returns true.
Proof.
  intros Ho Hf Hs Hb Hwf Hcr.
  assert (Heq : DownloadFile E fileloc u headers cookies s
                = writeToFileFromURL E fileloc u headers cookies s).
  { destruct (outbound_inl _ _ _ _ _ _ Ho) as [Hu Hd].
    unfold DownloadFile, http_NewRequest. rewrite Hu. run. rewrite Hd.
    repeat (run; rewrite ?Hf). reflexivity. }
  rewrite Heq.
  destruct (writeToFileFromURL_absent E fileloc u headers cookies s req resp
              Ho Hs Hf Hcr) as (s' & Hrun & Hfs & _).
  assert (Hc : copied E fileloc resp = (Body resp, Some err))
    by (unfold copied; rewrite Hwf, Hb; reflexivity).
  rewrite Hc in Hrun, Hfs. cbn [fst snd] in Hrun, Hfs.
  exists s'. split; [exact Hrun|]. split; [exact Hfs|].
  unfold FileExists, gets. cbn [fst]. rewrite Hfs, lookup_insert_eq.
  reflexivity.
Qed.

End Partial.

(** *** The theorems of this part on concrete worlds *)

Lemma DownloadFile_never_shortens_witness :
  let E := Sample.env
             (Sample.always (inl (Sample.response 200 (Some "2") "hi")))
             None None in
  let s := Sample.state Sample.hello in
  exists data' : list byte,
    fs (snd (DownloadFile E "a.txt" "http://h/a" [] (Some []) s)) !! "a.txt"
      = Some data' /\
    (5 <= length data')%nat.
Proof.
  intros E s.
  destruct (DownloadFile_never_shortens
              E "a.txt" "http://h/a" [] (Some []) s
              (list_byte_of_string "hello") eq_refl)
    as (data' & Hf & Hlen & _).
  exists data'. split; [exact Hf|exact Hlen].
Defined.

Lemma SetUserAgent_reaches_the_next_request_witness :
  let E := Sample.env (Sample.always (inl Sample.not_found)) None None in
  let s := Sample.state ∅ in
  let req := {| Method := "GET"; URL := "http://h/a";
                ReqHeader := {[ "User-Agent" := ["probe/2"] ]} |} in
  ReqHeader req !! "User-Agent" = Some ["probe/2"] /\
  sent (snd (GetBodyFromURL E "http://h/a" [] (Some [])
               (snd (SetUserAgent "probe/2" s)))) = [req].
Proof.
  intros E s req.
  destruct (SetUserAgent_reaches_the_next_request
              E "probe/2" "a.txt" "http://h/a" [] (Some []) s req)
    as (_ & Hua & Hsent & _).
  - vm_compute; reflexivity.
  - intros k v [].
  - split; [exact Hua|exact Hsent].
Defined.

Lemma nil_cookie_entry_panics_witness :
  let E := Sample.env (Sample.always (inl Sample.not_found)) None None in
  let s := Sample.state Sample.hello in
  GetBodyFromURL E "http://h/a" [] (Some [Some Sample.sid; None]) s
    = (Panics, s) /\
  GetRespFromURL E "http://h/a" [] (Some [Some Sample.sid; None]) s
    = (Panics, s) /\
  DownloadFile E "a.txt" "http://h/a" [] (Some [Some Sample.sid; None]) s
    = (Panics, s).
Proof.
  intros E s.
  apply (nil_cookie_entry_panics E "a.txt" "http://h/a" []
           [Some Sample.sid; None] s).
  - reflexivity.
  - right. left. reflexivity.
Defined.

Lemma header_order_is_immaterial_witness :
  let E := Sample.env (Sample.always (inl Sample.not_found)) None None in
  let s := Sample.state ∅ in
  GetBodyFromURL E "http://h/a" [("accept", "text/plain"); ("X-Id", "1")]
    (Some []) s
  = GetBodyFromURL E "http://h/a" [("X-Id", "1"); ("accept", "text/plain")]
      (Some []) s.
Proof.
  intros E s.
  apply (header_order_is_immaterial E
           [("accept", "text/plain"); ("X-Id", "1")]
           [("X-Id", "1"); ("accept", "text/plain")]
           "a.txt" "http://h/a" (Some []) s).
  - apply perm_swap.
  - vm_compute. apply NoDup_cons. split.
    + intros Hin. apply list_elem_of_In in Hin as [Heq|[]]. discriminate Heq.
    + apply NoDup_cons. split; [|apply NoDup_nil; exact I].
      intros Hin. apply list_elem_of_In in Hin as [].
Defined.

Lemma second_call_skips_witness :
  let E := Sample.env
             (Sample.always (inl (Sample.response 200 (Some "2") "hi")))
             None None in
  let s := Sample.state ∅ in
  exists s1 s2 : State,
    DownloadFile E "a.txt" "http://h/a" [] (Some []) s
      = (Returns (2%Z, None), s1) /\
    fs s1 = <["a.txt" := list_byte_of_string "hi"]> (fs s) /\
    fst (FileExists "a.txt" s1) = Returns true /\
    DownloadFile E "a.txt" "http://h/a" [] (Some []) s1
      = (Returns (0%Z, None), s2) /\
    fs s2 = fs s1.
Proof.
  intros E s.
  apply (second_call_skips E "a.txt" "http://h/a" [] (Some []) s
           (Sample.request "http://h/a")
           (Sample.response 200 (Some "2") "hi"));
    try reflexivity; try (vm_compute; reflexivity).
Defined.

Lemma longer_destination_is_fetched_every_time_witness :
  let E := Sample.env
             (Sample.always (inl (Sample.response 200 (Some "2") "hi")))
             None None in
  let s := Sample.state Sample.hello in
  exists s1 s2 : State,
    DownloadFile E "a.txt" "http://h/a" [] (Some []) s
      = (Returns (2%Z, None), s1) /\
    fs s1 = <["a.txt" := list_byte_of_string "hillo"]> (fs s) /\
    DownloadFile E "a.txt" "http://h/a" [] (Some []) s1
      = (Returns (2%Z, None), s2) /\
    fs s2 = fs s1 /\
    sent s2 = (sent s1 ++ [Sample.request "http://h/a";
                           Sample.request "http://h/a"])%list.
Proof.
  intros E s.
  apply (longer_destination_is_fetched_every_time
           E "a.txt" "http://h/a" [] (Some []) s
           (Sample.request "http://h/a")
           (Sample.response 200 (Some "2") "hi")
           (list_byte_of_string "hello"));
    try reflexivity; try (vm_compute; reflexivity).
  vm_compute; lia.
Defined.

Lemma writeToFileFromURL_destination_failure_witness :
  let E := Sample.readonly_env
             (Sample.always (inl (Sample.response 200 (Some "2") "hi"))) in
  let s := Sample.state ∅ in
  exists s' : State,
    writeToFileFromURL E "d/a.txt" "http://h/a" [] (Some []) s
      = (Returns (0%Z, Some "permission denied"), s') /\
    fs s' = fs s /\
    sent s' = [Sample.request "http://h/a"] /\
    mkdirs s' = ["d/a.txt"].
Proof.
  intros E s.
  destruct (writeToFileFromURL_destination_failure
              E "d/a.txt" "http://h/a" [] (Some []) s
              (Sample.request "http://h/a")
              (Sample.response 200 (Some "2") "hi") "permission denied")
    as (s' & Hrun & Hfs & _ & Hsent & Hmk & _).
  - vm_compute; reflexivity.
  - reflexivity.
  - reflexivity.
  - exists s'. repeat split; assumption.
Defined.

Lemma broken_body_leaves_partial_file_witness :
  let E := Sample.env (Sample.always (inl Sample.broken)) None None in
  let s := Sample.state ∅ in
  exists s' : State,
    DownloadFile E "a.txt" "http://h/a" [] (Some []) s
      = (Returns (3%Z, Some "unexpected EOF"), s') /\
    fs s' = <["a.txt" := list_byte_of_string "par"]> (fs s) /\
    fst (FileExists "a.txt" s') = Returns true.
Proof.
  intros E s.
  apply (broken_body_leaves_partial_file
           E "a.txt" "http://h/a" [] (Some []) s
           (Sample.request "http://h/a") Sample.broken "unexpected EOF");
    try reflexivity; try (vm_compute; reflexivity).
Defined.
